(** * Network automation framework: backup and configuration-push scripts

    A shallow embedding of [scripts/napalm_backup.py] and
    [scripts/netmiko_config.py].

    Both scripts are sequential orchestration around an external
    device-automation library.  The library, the clock, the filesystem and the
    terminal are modelled as an environment that answers every call made by
    the scripts; a call either returns a value or raises an exception.  The
    scripts themselves are written in a state-and-exception monad over a
    "world" that records the files written, the log, and the trace of calls
    made to the device library.

    Text is modelled with [string]; a character stands for a code point
    below 256. *)

From Stdlib Require Import Ascii String ZArith Lia.
From stdpp Require Import gmap strings list fin_maps pretty.

Local Open Scope Z_scope.
Local Open Scope stdpp_scope.

(** ** Python string operations used by the scripts *)

Module Py.

Definition LF : ascii := "010"%char.
Definition CR : ascii := "013"%char.

(** [str.isspace] on one character (code points below 256). *)
Definition is_space (c : ascii) : bool :=
  match c with
  | "009" | "010" | "011" | "012" | "013"
  | "028" | "029" | "030" | "031"
  | " " | "133" | "160" => true
  | _ => false
  end%char.

(** Truth value of a string: the empty string is false. *)
Definition truthy (s : string) : bool :=
  match s with "" => false | String _ _ => true end.

Fixpoint lstrip (s : string) : string :=
  match s with
  | "" => ""
  | String c s' => if is_space c then lstrip s' else s
  end.

Fixpoint rstrip (s : string) : string :=
  match s with
  | "" => ""
  | String c s' =>
      let r := rstrip s' in
      if is_space c && negb (truthy r) then "" else String c r
  end.

(** [s.strip()] *)
Definition strip (s : string) : string := rstrip (lstrip s).

(** [s.startswith(p)] *)
Fixpoint startswith (p s : string) : bool :=
  match p, s with
  | "", _ => true
  | String a p', String b s' => if decide (a = b) then startswith p' s' else false
  | String _ _, "" => false
  end.

(** [c.lower()] on one character (code points below 256): the ASCII capitals
    and the Latin-1 capitals other than the multiplication sign. *)
Definition lower_char (c : ascii) : ascii :=
  let n := N_of_ascii c in
  if ((65 <=? n) && (n <=? 90) ||
      (192 <=? n) && (n <=? 222) && negb (n =? 215))%N
  then ascii_of_N (n + 32) else c.

(** [s.lower()] *)
Fixpoint lower (s : string) : string :=
  match s with
  | "" => ""
  | String c s' => String (lower_char c) (lower s')
  end.

(** [c * n] for a one-character string [c]. *)
Fixpoint repeat_char (c : ascii) (n : nat) : string :=
  match n with O => "" | S n' => String c (repeat_char c n') end.

(** Text-mode reading translates the line endings CR LF and CR to LF. *)
Fixpoint universal_newlines (s : string) : string :=
  match s with
  | "" => ""
  | String c s' =>
      if decide (c = CR) then
        match s' with
        | String c' s'' =>
            if decide (c' = LF) then String LF (universal_newlines s'')
            else String LF (universal_newlines s')
        | "" => String LF ""
        end
      else String c (universal_newlines s')
  end.

(** Lines of a translated text, each with its terminating LF; a last line
    without terminator is yielded as it is, an empty rest yields nothing. *)
Fixpoint split_lines_go (cur : string) (s : string) : list string :=
  match s with
  | "" => if truthy cur then [String.rev cur] else []
  | String c s' =>
      if decide (c = LF) then String.rev (String c cur) :: split_lines_go "" s'
      else split_lines_go (String c cur) s'
  end.

(** [for line in f] over a file opened in text mode. *)
Definition file_lines (text : string) : list string :=
  split_lines_go "" (universal_newlines text).

(** [os.path.join(a, b)] on POSIX. *)
Definition ends_with_slash (a : string) : bool :=
  match String.rev a with String "/" _ => true | _ => false end.

Definition path_join (a b : string) : string :=
  if startswith "/" b then b
  else if negb (truthy a) || ends_with_slash a then a +:+ b
  else a +:+ "/" +:+ b.

(** [str(x)] of an optional string inside an f-string: [None] prints as
    the word None. *)
Definition fmt (o : option string) : string := default "None" o.

End Py.

(** ** Exceptions and the state-and-exception monad *)

Inductive exc_class :=
| KeyError | TypeError | FileNotFoundError | OSError | EOFError | YAMLError
| LibraryError.

Global Instance exc_class_eq_dec : EqDecision exc_class.
Proof. solve_decision. Defined.

(** An exception: its class (always a subclass of [Exception]) and [str(e)]. *)
Record exn := Exn { exc_kind : exc_class; exc_str : string }.

(** [KeyError(k)]: [str(e)] is the [repr] of the key. *)
Definition key_error (k : string) : exn := Exn KeyError ("'" +:+ k +:+ "'").

(** What the environment answers to a call. *)
Inductive reply (A : Type) :=
| Returns (a : A)
| Raises (e : exn).
Arguments Returns {A} a.
Arguments Raises {A} e.

(** How a computation ends: a value, an exception on its way up, or
    [sys.exit(code)]. *)
Inductive outcome (A : Type) :=
| Ret (a : A)
| Raise (e : exn)
| SysExit (code : Z).
Arguments Ret {A} a.
Arguments Raise {A} e.
Arguments SysExit {A} code.

Definition M (W A : Type) : Type := W → outcome A * W.

Definition ret {W A} (a : A) : M W A := λ w, (Ret a, w).
Definition raise {W A} (e : exn) : M W A := λ w, (Raise e, w).
Definition sys_exit {W A} (code : Z) : M W A := λ w, (SysExit code, w).

Definition bind {W A B} (m : M W A) (k : A → M W B) : M W B :=
  λ w, match m w with
       | (Ret a, w') => k a w'
       | (Raise e, w') => (Raise e, w')
       | (SysExit c, w') => (SysExit c, w')
       end.

(** [try: body  except Exception as e: handler e] *)
Definition try_except {W A} (body : M W A) (handler : exn → M W A) : M W A :=
  λ w, match body w with
       | (Raise e, w') => handler e w'
       | r => r
       end.

Definition of_reply {W A} (r : reply A) : M W A :=
  match r with Returns a => ret a | Raises e => raise e end.

(** [d[k]] on a dict with string values. *)
Definition getitem {W} (d : gmap string string) (k : string) : M W string :=
  match d !! k with Some v => ret v | None => raise (key_error k) end.

Declare Scope py_scope.
Delimit Scope py_scope with py.
Notation "'let!' x ':=' m 'in' k" := (bind m (λ x, k))
  (at level 10, x name, m at level 100, k at level 200) : py_scope.
Notation "m ';;' k" := (bind m (λ _, k))
  (at level 100, k at level 200, right associativity) : py_scope.

(** [for x in xs: acc.append(body x)] *)
Fixpoint for_append {W A B} (body : A → M W B) (xs : list A) (acc : list B)
  : M W (list B) :=
  match xs with
  | [] => ret acc
  | x :: xs' => bind (body x) (λ b, for_append body xs' (acc ++ [b]))
  end.

(** Process exit status of [sys.exit(main())] for a [main] returning an
    integer: an exception that reaches the top level ends the process with
    status 1. *)
Definition exit_status (o : outcome Z) : Z :=
  match o with
  | Ret c => c
  | Raise _ => 1
  | SysExit c => c
  end.

(** ** scripts/napalm_backup.py *)

Module NapalmBackup.

Inductive level := INFO | WARNING | ERROR.

(** A device record of the inventory: a dict with string values. *)
Abbreviation device := (gmap string string).

(** [get_facts()]: a mapping, [get_config()]: a mapping from the names
    running / startup / candidate to texts, [get_interfaces()]: a mapping from
    interface names to mappings. *)
Abbreviation facts := (gmap string string).
Abbreviation config := (gmap string string).
Abbreviation interfaces := (gmap string (gmap string string)).

(** What a file holds: text written with [f.write], or the serialisation
    [json.dump(v, f, indent=2)] of a mapping, kept symbolic. *)
Inductive content :=
| Text (s : string)
| JsonFacts (v : facts)
| JsonInterfaces (v : interfaces).

(** Keyword arguments of the driver constructor; [optional_args] holds the
    single key secret. *)
Record conn_args := ConnArgs {
  ca_hostname : option string;
  ca_username : string;
  ca_password : string;
  ca_secret : string
}.

Inductive method := MOpen | MGetFacts | MGetConfig | MGetInterfaces | MClose.

Global Instance method_eq_dec : EqDecision method.
Proof. solve_decision. Defined.

(** Calls made to the device library, in order; [ok] tells whether the call
    returned ([true]) or raised ([false]).  Connection objects are numbered in
    order of construction. *)
Inductive event :=
| EvGetDriver (name : string) (ok : bool)
| EvConnect (k : nat) (args : conn_args) (ok : bool)
| EvCall (k : nat) (m : method) (ok : bool).

(** How one connection object behaves: each method is called at most once on
    it, so one answer per method describes it completely. *)
Record napalm_behaviour := NapalmBehaviour {
  nb_init : reply unit;
  nb_open : reply unit;
  nb_get_facts : reply facts;
  nb_get_config : reply config;
  nb_get_interfaces : reply interfaces;
  nb_close : reply unit
}.

(** What [yaml.safe_load] finds at the inventory path: no file, a file that is
    not YAML, or a document, given by the value under its key devices when it
    has one. *)
Inductive inventory_source :=
| InvMissing
| InvMalformed (msg : string)
| InvDocument (devices : option (list device)).

(** The environment of one process run. *)
Record env := Env {
  env_inventory : string → inventory_source;
  env_get_driver : string → reply unit;
  (** behaviour of the k-th connection object constructed *)
  env_conn : nat → napalm_behaviour;
  (** the k-th value of [datetime.now().strftime('%Y%m%d_%H%M%S')] *)
  env_now : nat → string;
  (** whether the k-th filesystem operation ([os.makedirs], [open]) raises *)
  env_fs : nat → option exn
}.

Record world := World {
  w_files : gmap string content;
  w_dirs : gset string;
  w_log : list (level * string);
  w_stdout : list string;
  w_trace : list event;
  w_conns : nat;
  w_clock : nat;
  w_fsops : nat
}.

Definition empty_world : world := World ∅ ∅ [] [] [] 0 0 0.

Definition set_files (f : gmap string content → gmap string content) (w : world) :=
  World (f (w_files w)) (w_dirs w) (w_log w) (w_stdout w) (w_trace w)
        (w_conns w) (w_clock w) (w_fsops w).
Definition set_dirs (f : gset string → gset string) (w : world) :=
  World (w_files w) (f (w_dirs w)) (w_log w) (w_stdout w) (w_trace w)
        (w_conns w) (w_clock w) (w_fsops w).
Definition add_log (r : level * string) (w : world) :=
  World (w_files w) (w_dirs w) (w_log w ++ [r]) (w_stdout w) (w_trace w)
        (w_conns w) (w_clock w) (w_fsops w).
Definition add_stdout (s : string) (w : world) :=
  World (w_files w) (w_dirs w) (w_log w) (w_stdout w ++ [s]) (w_trace w)
        (w_conns w) (w_clock w) (w_fsops w).
Definition add_event (e : event) (w : world) :=
  World (w_files w) (w_dirs w) (w_log w) (w_stdout w) (w_trace w ++ [e])
        (w_conns w) (w_clock w) (w_fsops w).
Definition bump_conns (w : world) :=
  World (w_files w) (w_dirs w) (w_log w) (w_stdout w) (w_trace w)
        (S (w_conns w)) (w_clock w) (w_fsops w).
Definition bump_clock (w : world) :=
  World (w_files w) (w_dirs w) (w_log w) (w_stdout w) (w_trace w)
        (w_conns w) (S (w_clock w)) (w_fsops w).
Definition bump_fsops (w : world) :=
  World (w_files w) (w_dirs w) (w_log w) (w_stdout w) (w_trace w)
        (w_conns w) (w_clock w) (S (w_fsops w)).

Definition is_ok {A} (r : reply A) : bool :=
  match r with Returns _ => true | Raises _ => false end.

(** The Operation Result returned by [backup_device_config]: the dict with
    status success, or the dict with status failed. *)
Inductive backup_result :=
| Success (hostname : option string) (backup_dir timestamp : string)
          (files : gmap string string)
| Failed (hostname : option string) (error : string).

Definition status (r : backup_result) : string :=
  match r with Success _ _ _ _ => "success" | Failed _ _ => "failed" end.

Definition result_hostname (r : backup_result) : option string :=
  match r with Success h _ _ _ => h | Failed h _ => h end.

(** The static table of [backup_device_config]. *)
Definition driver_map : gmap string string :=
  list_to_map
    [ ("cisco_ios", "ios"); ("cisco_xe", "ios"); ("cisco_nxos", "nxos");
      ("cisco_xr", "iosxr"); ("arista_eos", "eos"); ("juniper", "junos");
      ("juniper_junos", "junos") ].

(** Lines 59 and 73: the driver chosen for a device record. *)
Definition device_type_of (d : device) : string :=
  default "cisco_ios" (d !! "device_type").

Definition napalm_driver_of (d : device) : string :=
  default "ios" (driver_map !! device_type_of d).

Section WithEnv.

Variable E : env.

Local Open Scope py_scope.

Definition log (l : level) (msg : string) : M world unit :=
  λ w, (Ret tt, add_log (l, msg) w).

Definition print (s : string) : M world unit :=
  λ w, (Ret tt, add_stdout s w).

(** [datetime.now().strftime(...)] *)
Definition now : M world string :=
  λ w, (Ret (env_now E (w_clock w)), bump_clock w).

Definition fs_op : M world unit :=
  λ w, match env_fs E (w_fsops w) with
       | Some e => (Raise e, bump_fsops w)
       | None => (Ret tt, bump_fsops w)
       end.

(** [os.makedirs(p, exist_ok=True)] *)
Definition makedirs (p : string) : M world unit :=
  fs_op ;; λ w, (Ret tt, set_dirs (λ ds, {[p]} ∪ ds) w).

(** [open(p, 'w')]: the file exists and is empty once the call returns. *)
Definition open_w (p : string) : M world unit :=
  fs_op ;; λ w, (Ret tt, set_files (insert p (Text "")) w).

(** [f.write(...)] or [json.dump(..., f)] on the file opened at [p]. *)
Definition write (p : string) (c : content) : M world unit :=
  λ w, (Ret tt, set_files (insert p c) w).

Definition get_network_driver (name : string) : M world unit :=
  λ w, let r := env_get_driver E name in
       of_reply r (add_event (EvGetDriver name (is_ok r)) w).

(** [driver(hostname=..., username=..., password=..., optional_args=...)]:
    yields the number of the new connection object. *)
Definition construct (a : conn_args) : M world nat :=
  λ w, let k := w_conns w in
       let r := nb_init (env_conn E k) in
       bind (of_reply r) (λ _, ret k)
            (add_event (EvConnect k a (is_ok r)) (bump_conns w)).

Definition call {A} (k : nat) (m : method) (r : reply A) : M world A :=
  λ w, of_reply r (add_event (EvCall k m (is_ok r)) w).

Definition conn_open (k : nat) := call k MOpen (nb_open (env_conn E k)).
Definition conn_get_facts (k : nat) := call k MGetFacts (nb_get_facts (env_conn E k)).
Definition conn_get_config (k : nat) := call k MGetConfig (nb_get_config (env_conn E k)).
Definition conn_get_interfaces (k : nat) :=
  call k MGetInterfaces (nb_get_interfaces (env_conn E k)).
Definition conn_close (k : nat) := call k MClose (nb_close (env_conn E k)).

(** [os.path.join(a, b)] where [b] may be [None]. *)
Definition os_path_join (a : string) (b : option string) : M world string :=
  match b with
  | Some s => ret (Py.path_join a s)
  | None =>
      raise (Exn TypeError
               "expected str, bytes or os.PathLike object, not NoneType")
  end.

(** Name of an artifact: the f-string hostname, kind and timestamp. *)
Definition artifact_name (hostname : option string) (kind timestamp ext : string)
  : string :=
  Py.fmt hostname +:+ "_" +:+ kind +:+ "_" +:+ timestamp +:+ ext.

(** Lines 27-47. *)
Definition load_device_inventory (inventory_file : string)
  : M world (list device) :=
  match env_inventory E inventory_file with
  | InvMissing =>
      log ERROR ("Inventory file " +:+ inventory_file +:+ " not found") ;;
      sys_exit 1
  | InvMalformed msg =>
      log ERROR ("Error parsing YAML file: " +:+ msg) ;;
      sys_exit 1
  | InvDocument None => raise (key_error "devices")
  | InvDocument (Some devices) =>
      log INFO ("Successfully loaded " +:+ pretty (length devices)
                +:+ " devices from inventory") ;;
      ret devices
  end.

(** Lines 49-154. *)
Definition backup_device_config (device : device) : M world backup_result :=
  let device_type := device_type_of device in
  let hostname := device !! "host" in
  let napalm_driver := napalm_driver_of device in
  try_except
    (log INFO ("Connecting to " +:+ Py.fmt hostname
               +:+ " using NAPALM driver: " +:+ napalm_driver) ;;
     get_network_driver napalm_driver ;;
     let! username := getitem device "username" in
     let! password := getitem device "password" in
     let! password' := getitem device "password" in
     let secret := default password' (device !! "secret") in
     let! device_conn := construct (ConnArgs hostname username password secret) in
     conn_open device_conn ;;
     let! facts := conn_get_facts device_conn in
     log INFO ("Connected to "
               +:+ default (Py.fmt hostname) (facts !! "hostname")
               +:+ " - Model: " +:+ default "Unknown" (facts !! "model")) ;;
     let! config := conn_get_config device_conn in
     let! timestamp := now in
     let backup_base_dir := "backups" in
     let! device_backup_dir := os_path_join backup_base_dir hostname in
     makedirs device_backup_dir ;;
     let running_config_file :=
       Py.path_join device_backup_dir
         (artifact_name hostname "running" timestamp ".cfg") in
     open_w running_config_file ;;
     let! running := getitem config "running" in
     write running_config_file (Text running) ;;
     log INFO ("Running configuration saved to " +:+ running_config_file) ;;
     (match config !! "startup" with
      | Some startup =>
          if Py.truthy startup then
            let startup_config_file :=
              Py.path_join device_backup_dir
                (artifact_name hostname "startup" timestamp ".cfg") in
            open_w startup_config_file ;;
            write startup_config_file (Text startup) ;;
            log INFO ("Startup configuration saved to " +:+ startup_config_file)
          else ret tt
      | None => ret tt
      end) ;;
     let facts_file :=
       Py.path_join device_backup_dir
         (artifact_name hostname "facts" timestamp ".json") in
     open_w facts_file ;;
     write facts_file (JsonFacts facts) ;;
     log INFO ("Device facts saved to " +:+ facts_file) ;;
     let! interfaces := conn_get_interfaces device_conn in
     let interfaces_file :=
       Py.path_join device_backup_dir
         (artifact_name hostname "interfaces" timestamp ".json") in
     open_w interfaces_file ;;
     write interfaces_file (JsonInterfaces interfaces) ;;
     log INFO ("Interface information saved to " +:+ interfaces_file) ;;
     conn_close device_conn ;;
     ret (Success hostname device_backup_dir timestamp
            (list_to_map [ ("running_config", running_config_file);
                           ("facts", facts_file);
                           ("interfaces", interfaces_file) ])))
    (λ e,
       log ERROR ("Failed to backup " +:+ Py.fmt hostname +:+ ": " +:+ exc_str e) ;;
       ret (Failed hostname (exc_str e))).

Definition rule : string := Py.repeat_char "=" 50.

(** Lines 207-213: the body of the loop of [main]. *)
Definition backup_one (device : device) : M world backup_result :=
  log INFO (String Py.LF rule) ;;
  let! host := getitem device "host" in
  log INFO ("Backing up device: " +:+ host) ;;
  log INFO rule ;;
  backup_device_config device.

Definition is_success (r : backup_result) : bool :=
  bool_decide (status r = "success").

Definition is_failed (r : backup_result) : bool :=
  bool_decide (status r = "failed").

(** [print] of the line of one successful device (line 231). *)
Definition print_success (r : backup_result) : M world unit :=
  match r with
  | Success h dir _ _ =>
      print ("  - " +:+ Py.fmt h +:+ ": Backed up to " +:+ dir)
  | Failed _ _ => raise (key_error "backup_dir")
  end.

(** [print] of the line of one failed device (line 237). *)
Definition print_failed (r : backup_result) : M world unit :=
  match r with
  | Failed h err => print ("  - " +:+ Py.fmt h +:+ ": " +:+ err)
  | Success _ _ _ _ => raise (key_error "error")
  end.

(** [for r in results: if cond r: body r] *)
Fixpoint for_if (cond : backup_result → bool)
    (body : backup_result → M world unit) (rs : list backup_result)
  : M world unit :=
  match rs with
  | [] => ret tt
  | r :: rs' => (if cond r then body r else ret tt) ;; for_if cond body rs'
  end.

(** Lines 215-242: the summary report and the return value of [main]. *)
Definition report (results : list backup_result) : M world Z :=
  print (String Py.LF rule) ;;
  print "Backup Summary" ;;
  print rule ;;
  let success_count := Z.of_nat (length (filter (λ r, is_success r = true) results)) in
  let failed_count := (Z.of_nat (length results) - success_count)%Z in
  print ("Total devices: " +:+ pretty (length results)) ;;
  print ("Successful backups: " +:+ pretty success_count) ;;
  print ("Failed backups: " +:+ pretty failed_count) ;;
  (if (success_count >? 0)%Z then
     print (String Py.LF "Successful backups:") ;;
     for_if is_success print_success results
   else ret tt) ;;
  (if (failed_count >? 0)%Z then
     print (String Py.LF "Failed backups:") ;;
     for_if is_failed print_failed results
   else ret tt) ;;
  log INFO "Backup process completed" ;;
  ret (if (failed_count =? 0)%Z then 0 else 1)%Z.

(** Lines 189-213 of [main], up to the end of the loop: yields the local
    [results]. *)
Definition main_backups : M world (list backup_result) :=
  print (String Py.LF "=== Network Device Backup Tool ===") ;;
  print ("Using NAPALM for automated configuration backups" +:+ String Py.LF "") ;;
  makedirs "logs" ;;
  makedirs "backups" ;;
  let! devices := load_device_inventory "config/devices.yml" in
  print ("Loaded " +:+ pretty (length devices) +:+ " device(s) from inventory"
         +:+ String Py.LF "") ;;
  for_append backup_one devices [].

(** Lines 189-242. *)
Definition main : M world Z :=
  let! results := main_backups in
  report results.

End WithEnv.

End NapalmBackup.

(** ** scripts/netmiko_config.py *)

Module NetmikoConfig.

Inductive level := INFO | WARNING | ERROR.

(** A device record of the inventory: a dict with string values, passed whole
    to [ConnectHandler] as keyword arguments. *)
Abbreviation device := (gmap string string).

(** Calls made to the device library, in order; [ok] tells whether the call
    returned or raised.  Connections are numbered in order of creation. *)
Inductive event :=
| EvConnect (k : nat) (d : device) (ok : bool)
| EvEnable (k : nat) (ok : bool)
| EvSendCommand (k : nat) (command : string) (ok : bool)
| EvSendConfigSet (k : nat) (commands : list string) (ok : bool)
| EvSaveConfig (k : nat) (ok : bool)
| EvDisconnect (k : nat) (ok : bool).

(** How one connection behaves: each method is called at most once on it. *)
Record netmiko_behaviour := NetmikoBehaviour {
  nm_connect : reply unit;
  nm_enable : reply unit;
  nm_send_command : string → reply string;
  nm_send_config_set : list string → reply string;
  nm_save_config : reply string;
  nm_disconnect : reply unit
}.

Inductive inventory_source :=
| InvMissing
| InvMalformed (msg : string)
| InvDocument (devices : option (list device)).

Record env := Env {
  env_inventory : string → inventory_source;
  (** behaviour of the k-th connection created by [ConnectHandler] *)
  env_conn : nat → netmiko_behaviour;
  (** the k-th value of [datetime.now().strftime('%Y%m%d_%H%M%S')] *)
  env_now : nat → string;
  (** whether the k-th filesystem operation ([os.makedirs], [open]) raises *)
  env_fs : nat → option exn
}.

Record world := World {
  w_files : gmap string string;
  w_dirs : gset string;
  w_log : list (level * string);
  w_stdout : list string;
  (** lines still to be typed by the operator *)
  w_stdin : list string;
  w_trace : list event;
  w_conns : nat;
  w_clock : nat;
  w_fsops : nat
}.

Definition set_files (f : gmap string string → gmap string string) (w : world) :=
  World (f (w_files w)) (w_dirs w) (w_log w) (w_stdout w) (w_stdin w)
        (w_trace w) (w_conns w) (w_clock w) (w_fsops w).
Definition set_dirs (f : gset string → gset string) (w : world) :=
  World (w_files w) (f (w_dirs w)) (w_log w) (w_stdout w) (w_stdin w)
        (w_trace w) (w_conns w) (w_clock w) (w_fsops w).
Definition add_log (r : level * string) (w : world) :=
  World (w_files w) (w_dirs w) (w_log w ++ [r]) (w_stdout w) (w_stdin w)
        (w_trace w) (w_conns w) (w_clock w) (w_fsops w).
Definition add_stdout (s : string) (w : world) :=
  World (w_files w) (w_dirs w) (w_log w) (w_stdout w ++ [s]) (w_stdin w)
        (w_trace w) (w_conns w) (w_clock w) (w_fsops w).
Definition set_stdin (l : list string) (w : world) :=
  World (w_files w) (w_dirs w) (w_log w) (w_stdout w) l
        (w_trace w) (w_conns w) (w_clock w) (w_fsops w).
Definition add_event (e : event) (w : world) :=
  World (w_files w) (w_dirs w) (w_log w) (w_stdout w) (w_stdin w)
        (w_trace w ++ [e]) (w_conns w) (w_clock w) (w_fsops w).
Definition bump_conns (w : world) :=
  World (w_files w) (w_dirs w) (w_log w) (w_stdout w) (w_stdin w)
        (w_trace w) (S (w_conns w)) (w_clock w) (w_fsops w).
Definition bump_clock (w : world) :=
  World (w_files w) (w_dirs w) (w_log w) (w_stdout w) (w_stdin w)
        (w_trace w) (w_conns w) (S (w_clock w)) (w_fsops w).
Definition bump_fsops (w : world) :=
  World (w_files w) (w_dirs w) (w_log w) (w_stdout w) (w_stdin w)
        (w_trace w) (w_conns w) (w_clock w) (S (w_fsops w)).

Definition is_ok {A} (r : reply A) : bool :=
  match r with Returns _ => true | Raises _ => false end.

(** The dict returned by [configure_device]. *)
Inductive config_result :=
| Success (output save_output : string)
| Failed (error : string).

Definition status (r : config_result) : string :=
  match r with Success _ _ => "success" | Failed _ => "failed" end.

(** The dict appended to [results] by [main]: the dict of [configure_device]
    with the keys device and backup added; [None] is Python's [None]. *)
Record push_result := PushResult {
  pr_result : config_result;
  pr_device : string;
  pr_backup : option string
}.

(** Line 60: the list comprehension over the lines of the file. *)
Fixpoint comprehension (lines : list string) : list string :=
  match lines with
  | [] => []
  | line :: rest =>
      if Py.truthy (Py.strip line) && negb (Py.startswith "#" line)
      then Py.strip line :: comprehension rest
      else comprehension rest
  end.

(** How [main] leaves the part before the summary: the two early [return]s,
    or the end of the loop with the local [results]. *)
Inductive run :=
| NoCommands
| Cancelled
| Completed (results : list push_result).

Definition results_of (r : run) : list push_result :=
  match r with Completed rs => rs | _ => [] end.

Section WithEnv.

Variable E : env.

Local Open Scope py_scope.

Definition log (l : level) (msg : string) : M world unit :=
  λ w, (Ret tt, add_log (l, msg) w).

Definition print (s : string) : M world unit :=
  λ w, (Ret tt, add_stdout s w).

(** [input(prompt)]: the prompt is written, one line is read; at end of input
    [EOFError] is raised. *)
Definition input (prompt : string) : M world string :=
  λ w, match w_stdin w with
       | l :: rest => (Ret l, set_stdin rest (add_stdout prompt w))
       | [] => (Raise (Exn EOFError "EOF when reading a line"),
                add_stdout prompt w)
       end.

Definition now : M world string :=
  λ w, (Ret (env_now E (w_clock w)), bump_clock w).

Definition fs_op : M world unit :=
  λ w, match env_fs E (w_fsops w) with
       | Some e => (Raise e, bump_fsops w)
       | None => (Ret tt, bump_fsops w)
       end.

(** [os.makedirs(p, exist_ok=True)] *)
Definition makedirs (p : string) : M world unit :=
  fs_op ;; λ w, (Ret tt, set_dirs (λ ds, {[p]} ∪ ds) w).

(** [open(p, 'w')] *)
Definition open_w (p : string) : M world unit :=
  fs_op ;; λ w, (Ret tt, set_files (insert p "") w).

Definition write (p : string) (s : string) : M world unit :=
  λ w, (Ret tt, set_files (insert p s) w).

(** [open(p, 'r')] followed by reading the whole text. *)
Definition open_r (p : string) : M world string :=
  fs_op ;;
  λ w, match w_files w !! p with
       | Some text => (Ret text, w)
       | None =>
           (Raise (Exn FileNotFoundError
                     ("[Errno 2] No such file or directory: '" +:+ p +:+ "'")),
            w)
       end.

(** [try: body  except FileNotFoundError: handler] *)
Definition try_except_file_not_found {A} (body : M world A) (handler : M world A)
  : M world A :=
  λ w, match body w with
       | (Raise e, w') =>
           if decide (exc_kind e = FileNotFoundError) then handler w'
           else (Raise e, w')
       | r => r
       end.

(** [ConnectHandler] on the device record: yields the number of the new
    connection. *)
Definition ConnectHandler (d : device) : M world nat :=
  λ w, let k := w_conns w in
       let r := nm_connect (env_conn E k) in
       bind (of_reply r) (λ _, ret k)
            (add_event (EvConnect k d (is_ok r)) (bump_conns w)).

Definition call {A} (ev : bool → event) (r : reply A) : M world A :=
  λ w, of_reply r (add_event (ev (is_ok r)) w).

Definition enable (k : nat) : M world unit :=
  call (EvEnable k) (nm_enable (env_conn E k)).
Definition send_command (k : nat) (c : string) : M world string :=
  call (EvSendCommand k c) (nm_send_command (env_conn E k) c).
Definition send_config_set (k : nat) (cs : list string) : M world string :=
  call (EvSendConfigSet k cs) (nm_send_config_set (env_conn E k) cs).
Definition save_config (k : nat) : M world string :=
  call (EvSaveConfig k) (nm_save_config (env_conn E k)).
Definition disconnect (k : nat) : M world unit :=
  call (EvDisconnect k) (nm_disconnect (env_conn E k)).

(** Lines 26-46. *)
Definition load_device_inventory (inventory_file : string)
  : M world (list device) :=
  match env_inventory E inventory_file with
  | InvMissing =>
      log ERROR ("Inventory file " +:+ inventory_file +:+ " not found") ;;
      sys_exit 1
  | InvMalformed msg =>
      log ERROR ("Error parsing YAML file: " +:+ msg) ;;
      sys_exit 1
  | InvDocument None => raise (key_error "devices")
  | InvDocument (Some devices) =>
      log INFO ("Successfully loaded " +:+ pretty (length devices)
                +:+ " devices from inventory") ;;
      ret devices
  end.

(** Lines 48-65. *)
Definition load_configuration (config_file : string) : M world (list string) :=
  try_except_file_not_found
    (let! text := open_r config_file in
     let commands := comprehension (Py.file_lines text) in
     log INFO ("Loaded " +:+ pretty (length commands)
               +:+ " configuration commands") ;;
     ret commands)
    (log ERROR ("Configuration file " +:+ config_file +:+ " not found") ;;
     ret []).

(** Lines 67-108. *)
Definition configure_device (device : device) (commands : list string)
  : M world config_result :=
  try_except
    (let! host := getitem device "host" in
     log INFO ("Connecting to " +:+ host +:+ "...") ;;
     let! connection := ConnectHandler device in
     enable connection ;;
     let! host' := getitem device "host" in
     log INFO ("Sending " +:+ pretty (length commands) +:+ " commands to "
               +:+ host') ;;
     let! output := send_config_set connection commands in
     let! save_output := save_config connection in
     let! host'' := getitem device "host" in
     log INFO ("Configuration completed successfully on " +:+ host'') ;;
     disconnect connection ;;
     ret (Success output save_output))
    (λ e,
       let! host := getitem device "host" in
       log ERROR ("Failed to configure " +:+ host +:+ ": " +:+ exc_str e) ;;
       ret (Failed (exc_str e))).

(** Lines 110-145: yields the path of the backup, or [None]. *)
Definition backup_configuration (device : device) : M world (option string) :=
  try_except
    (let! connection := ConnectHandler device in
     enable connection ;;
     let! config := send_command connection "show running-config" in
     let backup_dir := "backups" in
     makedirs backup_dir ;;
     let! timestamp := now in
     let! host := getitem device "host" in
     let backup_file := backup_dir +:+ "/" +:+ host +:+ "_" +:+ timestamp +:+ ".cfg" in
     open_w backup_file ;;
     write backup_file config ;;
     log INFO ("Configuration backed up to " +:+ backup_file) ;;
     disconnect connection ;;
     ret (Some backup_file))
    (λ e,
       let! host := getitem device "host" in
       log ERROR ("Failed to backup configuration from " +:+ host +:+ ": "
                  +:+ exc_str e) ;;
       ret None).

Definition rule : string := Py.repeat_char "=" 50.

(** Lines 180-182: the three log lines at the head of the loop body. *)
Definition banner (device : device) : M world unit :=
  log INFO (String Py.LF rule) ;;
  let! host := getitem device "host" in
  log INFO ("Processing device: " +:+ host) ;;
  log INFO rule.

(** Lines 184-191: the rest of the loop body. *)
Definition backup_and_configure (device : device) (commands : list string)
  : M world push_result :=
  let! backup_file := backup_configuration device in
  let! result := configure_device device commands in
  let! host := getitem device "host" in
  ret (PushResult result host backup_file).

(** Lines 179-191: the body of the loop of [main]. *)
Definition push_one (commands : list string) (device : device)
  : M world push_result :=
  banner device ;;
  backup_and_configure device commands.

Definition is_success (r : push_result) : bool :=
  bool_decide (status (pr_result r) = "success").

Definition is_failed (r : push_result) : bool :=
  bool_decide (status (pr_result r) = "failed").

(** Line 209. *)
Definition print_failed (r : push_result) : M world unit :=
  match pr_result r with
  | Failed err => print ("  - " +:+ pr_device r +:+ ": " +:+ err)
  | Success _ _ => raise (key_error "error")
  end.

Fixpoint for_if (cond : push_result → bool)
    (body : push_result → M world unit) (rs : list push_result)
  : M world unit :=
  match rs with
  | [] => ret tt
  | r :: rs' => (if cond r then body r else ret tt) ;; for_if cond body rs'
  end.

(** Lines 193-211: the summary report. *)
Definition report (results : list push_result) : M world unit :=
  print (String Py.LF rule) ;;
  print "Configuration Summary" ;;
  print rule ;;
  let success_count := Z.of_nat (length (filter (λ r, is_success r = true) results)) in
  let failed_count := (Z.of_nat (length results) - success_count)%Z in
  print ("Total devices: " +:+ pretty (length results)) ;;
  print ("Successful: " +:+ pretty success_count) ;;
  print ("Failed: " +:+ pretty failed_count) ;;
  (if (failed_count >? 0)%Z then
     print (String Py.LF "Failed devices:") ;;
     for_if is_failed print_failed results
   else ret tt) ;;
  log INFO "Configuration process completed".

(** Lines 147-191 of [main]: everything before the summary. *)
Definition main_push : M world run :=
  print (String Py.LF "=== Network Device Configuration Tool ===") ;;
  print ("Using Netmiko for automated configuration deployment" +:+ String Py.LF "") ;;
  makedirs "logs" ;;
  makedirs "backups" ;;
  let! devices := load_device_inventory "config/devices.yml" in
  let! config_file :=
    input "Enter configuration file path (e.g., config/vlan_config.txt): " in
  let! commands := load_configuration config_file in
  match commands with
  | [] =>
      log ERROR "No configuration commands loaded. Exiting." ;;
      ret NoCommands
  | _ :: _ =>
      print (String Py.LF
               ("Ready to configure " +:+ pretty (length devices)
                +:+ " device(s) with " +:+ pretty (length commands)
                +:+ " command(s)")) ;;
      let! confirm := input "Do you want to proceed? (yes/no): " in
      if decide (Py.lower confirm ≠ "yes") then
        log INFO "Configuration cancelled by user" ;;
        ret Cancelled
      else
        let! results := for_append (push_one commands) devices [] in
        ret (Completed results)
  end.

(** Lines 147-211. *)
Definition main : M world unit :=
  let! r := main_push in
  match r with
  | Completed results => report results
  | NoCommands | Cancelled => ret tt
  end.

End WithEnv.

End NetmikoConfig.

(** ** Definitions used to state and prove the properties *)








Section MonadLaws.

Context {W : Type}.

(** What [try_except (bind m k) h] does once [m] has run. *)
Definition try_k {A B} (k : A → M W B) (h : exn → M W B) (r : outcome A * W)
  : outcome B * W :=
  match r with
  | (Ret a, w1) => try_except (k a) h w1
  | (Raise e, w1) => h e w1
  | (SysExit c, w1) => (SysExit c, w1)
  end.

(** What [bind m k] does once [m] has run. *)
Definition bind_k {A B} (k : A → M W B) (r : outcome A * W) : outcome B * W :=
  match r with
  | (Ret a, w1) => k a w1
  | (Raise e, w1) => (Raise e, w1)
  | (SysExit c, w1) => (SysExit c, w1)
  end.

End MonadLaws.

(** The events appended to a trace [old] to reach the trace [new]. *)
Definition new_events {A} (old new : list A) : list A := drop (length old) new.


(** *** Notions used for the backup script *)

(** Lines 101-127: the path of one artifact of a host for a timestamp. *)
Definition artifact_path (host kind timestamp ext : string) : string :=
  Py.path_join (Py.path_join "backups" host)
    (NapalmBackup.artifact_name (Some host) kind timestamp ext).

Definition artifact_paths (host timestamp : string) : list string :=
  [ artifact_path host "running" timestamp ".cfg";
    artifact_path host "startup" timestamp ".cfg";
    artifact_path host "facts" timestamp ".json";
    artifact_path host "interfaces" timestamp ".json" ].





(** Every session opened during [backup_device_config] has [close] called on
    it before the function returns. *)
Definition sessions_closed (E : NapalmBackup.env) (d : NapalmBackup.device)
    (w : NapalmBackup.world) : Prop :=
  ∀ k,
    NapalmBackup.EvCall k NapalmBackup.MOpen true
    ∈ new_events (NapalmBackup.w_trace w)
        (NapalmBackup.w_trace (NapalmBackup.backup_device_config E d w).2) →
    ∃ ok,
      NapalmBackup.EvCall k NapalmBackup.MClose ok
      ∈ new_events (NapalmBackup.w_trace w)
          (NapalmBackup.w_trace (NapalmBackup.backup_device_config E d w).2).

(** *** Concrete devices and environments *)

Module Examples.

Definition router : NapalmBackup.device :=
  list_to_map [ ("host", "r1"); ("device_type", "cisco_nxos");
                ("username", "admin"); ("password", "pw") ].

Definition healthy : NapalmBackup.napalm_behaviour :=
  NapalmBackup.NapalmBehaviour
    (Returns tt) (Returns tt)
    (Returns (list_to_map [("hostname", "r1"); ("model", "N9K")]))
    (Returns (list_to_map [("running", "hostname r1"); ("startup", "hostname r1")]))
    (Returns (list_to_map [("Ethernet1", list_to_map [("is_up", "True")])]))
    (Returns tt).

(** The session opens, then [get_facts] raises. *)
Definition facts_fail : NapalmBackup.napalm_behaviour :=
  NapalmBackup.NapalmBehaviour
    (Returns tt) (Returns tt)
    (Raises (Exn LibraryError "Connection reset"))
    (NapalmBackup.nb_get_config healthy)
    (NapalmBackup.nb_get_interfaces healthy)
    (Returns tt).


Definition backup_env (devices : list NapalmBackup.device)
    (conn : nat → NapalmBackup.napalm_behaviour) : NapalmBackup.env :=
  NapalmBackup.Env (λ _, NapalmBackup.InvDocument (Some devices))
    (λ _, Returns tt) conn (λ _, "20240101_120000") (λ _, None).

Definition all_healthy : NapalmBackup.env := backup_env [router] (λ _, healthy).
Definition facts_failing : NapalmBackup.env :=
  backup_env [router] (λ _, facts_fail).

(** The first device of the inventory fails, the second one is backed up. *)
Definition first_failing : NapalmBackup.env :=
  backup_env [router; router]
    (λ k, match k with O => facts_fail | _ => healthy end).

End Examples.

(** *** Notions used for the configuration script *)


(** The confirmation gate as the specification words it: any answer other
    than the exact word yes leaves the devices untouched and the result list
    empty. *)
Definition exact_yes_gate (E : NetmikoConfig.env) (w : NetmikoConfig.world)
  : Prop :=
  ∀ path confirm rest,
    NetmikoConfig.w_stdin w = path :: confirm :: rest →
    confirm ≠ "yes" →
    NetmikoConfig.w_trace (NetmikoConfig.main_push E w).2
    = NetmikoConfig.w_trace w
    ∧ ∀ r, (NetmikoConfig.main_push E w).1 = Ret r →
           NetmikoConfig.results_of r = [].

Module PushExamples.

Definition switch : NetmikoConfig.device :=
  list_to_map [ ("host", "sw1"); ("device_type", "cisco_ios");
                ("username", "admin"); ("password", "pw") ].

Definition reachable : NetmikoConfig.netmiko_behaviour :=
  NetmikoConfig.NetmikoBehaviour
    (Returns tt) (Returns tt) (λ _, Returns "hostname sw1")
    (λ _, Returns "configured") (Returns "saved") (Returns tt).

Definition refused : NetmikoConfig.netmiko_behaviour :=
  NetmikoConfig.NetmikoBehaviour
    (Raises (Exn LibraryError "Connection refused")) (Returns tt)
    (λ _, Returns "") (λ _, Returns "") (Returns "") (Returns tt).

(** A command file with an indented command, a comment, an empty line and a
    command followed by spaces. *)
Definition vlan_file : string :=
  " vlan 10" +:+ String Py.LF ""
  +:+ "# access vlan" +:+ String Py.LF ""
  +:+ String Py.LF ""
  +:+ "name users  " +:+ String Py.LF "".


Definition push_env (conn : nat → NetmikoConfig.netmiko_behaviour)
  : NetmikoConfig.env :=
  NetmikoConfig.Env (λ _, NetmikoConfig.InvDocument (Some [switch]))
    conn (λ _, "20240101_120000") (λ _, None).

(** The operator types the path of the command file, then [answer]. *)
Definition push_world (answer : string) : NetmikoConfig.world :=
  NetmikoConfig.World {[ "config/vlan_config.txt" := vlan_file ]} ∅ [] []
    [ "config/vlan_config.txt"; answer ] [] 0 0 0.

(** The backup connection is refused, the one for the change is accepted. *)
Definition backup_refused (k : nat) : NetmikoConfig.netmiko_behaviour :=
  match k with O => refused | _ => reachable end.

End PushExamples.

(** ** scripts/napalm_backup.py: [compare_configs] *)

Module BackupCompare.

Section WithReader.

(** What [open(path, 'r')] followed by [f.read()] answers for a path: the
    text of the file, or the exception raised. *)
Variable read_file : string → reply string.

Local Open Scope py_scope.

(** Lines 156-187.  [previous_backup] is [None] when the argument is left
    out. *)
Definition compare_configs (device current_backup : string)
    (previous_backup : option string) : M NapalmBackup.world string :=
  match previous_backup with
  | None => ret "No previous backup available for comparison"
  | Some previous =>
      if negb (Py.truthy previous) then
        ret "No previous backup available for comparison"
      else
        try_except
          (let! current_config := of_reply (read_file current_backup) in
           let! previous_config := of_reply (read_file previous) in
           if decide (current_config = previous_config) then
             NapalmBackup.log NapalmBackup.INFO
               ("No configuration changes detected for " +:+ device) ;;
             ret "No changes detected"
           else
             NapalmBackup.log NapalmBackup.WARNING
               ("Configuration changes detected for " +:+ device) ;;
             ret "Changes detected")
          (λ e,
             NapalmBackup.log NapalmBackup.ERROR
               ("Failed to compare configurations: " +:+ exc_str e) ;;
             ret ("Comparison failed: " +:+ exc_str e))
  end.

End WithReader.

End BackupCompare.

(** *** Further concrete devices, files and environments *)

Module MoreExamples.

(** A device record without the key host. *)
Definition nameless : NapalmBackup.device :=
  list_to_map [ ("username", "admin"); ("password", "pw") ].





(** An inventory whose second device has no host. *)
Definition second_nameless : NapalmBackup.env :=
  Examples.backup_env [Examples.router; nameless; Examples.router]
    (λ _, Examples.healthy).

(** A world that holds an artifact of an earlier run. *)
Definition after_earlier_run : NapalmBackup.world :=
  NapalmBackup.World
    {[ "backups/r1/r1_running_20231231_235959.cfg"
       := NapalmBackup.Text "hostname old" ]}
    ∅ [] [] [] 0 0 0.

(** Two backup files with the same text and one with another text; any other
    path cannot be read. *)
Definition backup_reader (path : string) : reply string :=
  if decide (path = "a.cfg") then Returns "hostname r1"
  else if decide (path = "b.cfg") then Returns "hostname r1"
  else if decide (path = "c.cfg") then Returns "hostname r9"
  else Raises (Exn FileNotFoundError
                 ("[Errno 2] No such file or directory: '" +:+ path +:+ "'")).

(** A switch record without the key host. *)
Definition nameless_switch : NetmikoConfig.device :=
  list_to_map [ ("device_type", "cisco_ios"); ("username", "admin");
                ("password", "pw") ].

(** The change is rejected by the device. *)
Definition rejecting : NetmikoConfig.netmiko_behaviour :=
  NetmikoConfig.NetmikoBehaviour
    (Returns tt) (Returns tt) (λ _, Returns "hostname sw1")
    (λ _, Raises (Exn LibraryError "Invalid input detected"))
    (Returns "saved") (Returns tt).

(** The session cannot be closed properly. *)
Definition hanging : NetmikoConfig.netmiko_behaviour :=
  NetmikoConfig.NetmikoBehaviour
    (Returns tt) (Returns tt) (λ _, Returns "hostname sw1")
    (λ _, Returns "configured") (Returns "saved")
    (Raises (Exn LibraryError "Socket is closed")).

(** Two switches in the inventory. *)
Definition two_switches (conn : nat → NetmikoConfig.netmiko_behaviour)
  : NetmikoConfig.env :=
  NetmikoConfig.Env
    (λ _, NetmikoConfig.InvDocument
            (Some [PushExamples.switch; PushExamples.switch]))
    conn (λ _, "20240101_120000") (λ _, None).

(** The operator names a command file that does not exist. *)
Definition wrong_path_world : NetmikoConfig.world :=
  NetmikoConfig.World {[ "config/vlan_config.txt" := PushExamples.vlan_file ]}
    ∅ [] [] [ "config/missing.txt"; "yes" ] [] 0 0 0.

End MoreExamples.
(** ** Properties of the string operations *)

Section StringFacts.

Lemma append_cons c (a b : string) : String c a +:+ b = String c (a +:+ b).
Proof. reflexivity. Qed.

Lemma append_empty_l (b : string) : "" +:+ b = b.
Proof. reflexivity. Qed.


Lemma append_assoc (a b c : string) : (a +:+ b) +:+ c = a +:+ (b +:+ c).
Proof. induction a as [|x a IH]; [done|]. by rewrite !append_cons, IH. Qed.














Lemma lower_char_y a : Py.lower_char a = "y"%char → a = "y"%char ∨ a = "Y"%char.
Proof.
  destruct a as [[] [] [] [] [] [] [] []]; vm_compute; intros; (discriminate || auto).
Qed.

Lemma lower_char_e a : Py.lower_char a = "e"%char → a = "e"%char ∨ a = "E"%char.
Proof.
  destruct a as [[] [] [] [] [] [] [] []]; vm_compute; intros; (discriminate || auto).
Qed.

Lemma lower_char_s a : Py.lower_char a = "s"%char → a = "s"%char ∨ a = "S"%char.
Proof.
  destruct a as [[] [] [] [] [] [] [] []]; vm_compute; intros; (discriminate || auto).
Qed.

(** The confirmations that [main] takes as affirmative. *)
Lemma lower_yes confirm :
  Py.lower confirm = "yes" ↔
  confirm ∈ ["yes"; "yeS"; "yEs"; "yES"; "Yes"; "YeS"; "YEs"; "YES"].
Proof.
  split.
  - destruct confirm as [|a [|b [|c [|]]]]; simpl; try discriminate.
    intros [= Ha Hb Hc].
    apply lower_char_y in Ha as [-> | ->];
      apply lower_char_e in Hb as [-> | ->];
      apply lower_char_s in Hc as [-> | ->];
      set_solver.
  - rewrite !elem_of_cons, elem_of_nil.
    intros [->|[->|[->|[->|[->|[->|[->|[->|[]]]]]]]]]; reflexivity.
Qed.


End StringFacts.

(** ** Laws of the monad *)

Section MonadFacts.

Context {W : Type}.

Lemma try_bind {A B} (m : M W A) (k : A → M W B) h w :
  try_except (bind m k) h w = try_k k h (m w).
Proof. unfold try_except, bind, try_k. by destruct (m w) as [[]]. Qed.

Lemma bind_run {A B} (m : M W A) (k : A → M W B) w :
  bind m k w = bind_k k (m w).
Proof. reflexivity. Qed.

Lemma ret_run {A} (a : A) (w : W) : ret a w = (Ret a, w).
Proof. reflexivity. Qed.

Lemma try_ret {A} (a : A) h (w : W) : try_except (ret a) h w = (Ret a, w).
Proof. reflexivity. Qed.

Lemma try_bind_assoc {A B C} (m : M W A) (k1 : A → M W B) (k2 : B → M W C) h w :
  try_except (bind (bind m k1) k2) h w
  = try_except (bind m (λ a, bind (k1 a) k2)) h w.
Proof. unfold try_except, bind. by destruct (m w) as [[]]. Qed.

Lemma bind_assoc {A B C} (m : M W A) (k1 : A → M W B) (k2 : B → M W C) w :
  bind (bind m k1) k2 w = bind m (λ a, bind (k1 a) k2) w.
Proof. unfold bind. by destruct (m w) as [[]]. Qed.

Lemma getitem_run (d : gmap string string) k (w : W) :
  getitem d k w = match d !! k with
                  | Some v => (Ret v, w)
                  | None => (Raise (key_error k), w)
                  end.
Proof. unfold getitem. by destruct (d !! k). Qed.

Lemma new_events_app {A} (old t : list A) : new_events old (old ++ t) = t.
Proof. unfold new_events. by rewrite drop_app_length. Qed.

Lemma new_events_refl {A} (old : list A) : new_events old old = [].
Proof. unfold new_events. by rewrite drop_all. Qed.

End MonadFacts.

(** ** scripts/napalm_backup.py: how each operation runs *)

Section NapalmRuns.

Import NapalmBackup.

Variable E : env.

Lemma log_run l msg w : log l msg w = (Ret tt, add_log (l, msg) w).
Proof. reflexivity. Qed.

Lemma print_run s w : print s w = (Ret tt, add_stdout s w).
Proof. reflexivity. Qed.

Lemma now_run w : now E w = (Ret (env_now E (w_clock w)), bump_clock w).
Proof. reflexivity. Qed.

Lemma write_run p c w : write p c w = (Ret tt, set_files (insert p c) w).
Proof. reflexivity. Qed.

Lemma makedirs_run p w :
  makedirs E p w = match env_fs E (w_fsops w) with
                   | Some e => (Raise e, bump_fsops w)
                   | None => (Ret tt, set_dirs (λ ds, {[p]} ∪ ds) (bump_fsops w))
                   end.
Proof. unfold makedirs, bind, fs_op. by destruct (env_fs E (w_fsops w)). Qed.

Lemma open_w_run p w :
  open_w E p w = match env_fs E (w_fsops w) with
                 | Some e => (Raise e, bump_fsops w)
                 | None => (Ret tt, set_files (insert p (Text "")) (bump_fsops w))
                 end.
Proof. unfold open_w, bind, fs_op. by destruct (env_fs E (w_fsops w)). Qed.

Lemma call_run {A} k m (r : reply A) w :
  call k m r w = match r with
                 | Returns a => (Ret a, add_event (EvCall k m true) w)
                 | Raises e => (Raise e, add_event (EvCall k m false) w)
                 end.
Proof. unfold call. by destruct r. Qed.

Lemma get_network_driver_run name w :
  get_network_driver E name w
  = match env_get_driver E name with
    | Returns _ => (Ret tt, add_event (EvGetDriver name true) w)
    | Raises e => (Raise e, add_event (EvGetDriver name false) w)
    end.
Proof. unfold get_network_driver. by destruct (env_get_driver E name) as [[]|]. Qed.

Lemma construct_run a w :
  construct E a w
  = match nb_init (env_conn E (w_conns w)) with
    | Returns _ =>
        (Ret (w_conns w), add_event (EvConnect (w_conns w) a true) (bump_conns w))
    | Raises e =>
        (Raise e, add_event (EvConnect (w_conns w) a false) (bump_conns w))
    end.
Proof.
  unfold construct. by destruct (nb_init (env_conn E (w_conns w))) as [[]|].
Qed.

Lemma os_path_join_run a b w :
  os_path_join a b w
  = match b with
    | Some s => (Ret (Py.path_join a s), w)
    | None =>
        (Raise (Exn TypeError
                  "expected str, bytes or os.PathLike object, not NoneType"), w)
    end.
Proof. by destruct b. Qed.

End NapalmRuns.

Ltac napalm_world_simpl :=
  cbn [NapalmBackup.w_files NapalmBackup.w_dirs NapalmBackup.w_log
       NapalmBackup.w_stdout NapalmBackup.w_trace NapalmBackup.w_conns
       NapalmBackup.w_clock NapalmBackup.w_fsops
       NapalmBackup.set_files NapalmBackup.set_dirs NapalmBackup.add_log
       NapalmBackup.add_stdout NapalmBackup.add_event NapalmBackup.bump_conns
       NapalmBackup.bump_clock NapalmBackup.bump_fsops].

Ltac split_scrutinee :=
  match goal with
  | |- context [try_k _ _ (match ?r with _ => _ end)] => destruct r eqn:?
  | |- context [bind_k _ (match ?r with _ => _ end)] => destruct r eqn:?
  end.

Ltac napalm_prim :=
  unfold NapalmBackup.conn_open, NapalmBackup.conn_get_facts,
    NapalmBackup.conn_get_config, NapalmBackup.conn_get_interfaces,
    NapalmBackup.conn_close;
  first
    [ rewrite log_run | rewrite print_run | rewrite now_run | rewrite write_run
    | rewrite makedirs_run | rewrite open_w_run | rewrite call_run
    | rewrite get_network_driver_run | rewrite construct_run
    | rewrite os_path_join_run | rewrite getitem_run | rewrite ret_run ].

(** One step of a run of the backup script: the first operation of the
    program is run, with a case split on the answer of the environment. *)
Ltac napalm_step :=
  first
    [ rewrite try_bind_assoc
    | rewrite try_bind; napalm_prim; napalm_world_simpl; try split_scrutinee;
      cbn [try_k]; napalm_world_simpl
    | rewrite try_ret
    | match goal with
      | |- context [try_except (bind (match ?x with _ => _ end) _) _ _] =>
          destruct x eqn:?
      end
    | rewrite bind_assoc
    | rewrite bind_run; napalm_prim; napalm_world_simpl; try split_scrutinee;
      cbn [bind_k]; napalm_world_simpl
    | rewrite ret_run ].


(** ** scripts/netmiko_config.py: how each operation runs *)

Section NetmikoRuns.

Import NetmikoConfig.

Variable E : env.

Lemma nm_log_run l msg w : log l msg w = (Ret tt, add_log (l, msg) w).
Proof. reflexivity. Qed.

Lemma nm_print_run s w : print s w = (Ret tt, add_stdout s w).
Proof. reflexivity. Qed.

Lemma nm_now_run w : now E w = (Ret (env_now E (w_clock w)), bump_clock w).
Proof. reflexivity. Qed.

Lemma nm_write_run p c w : write p c w = (Ret tt, set_files (insert p c) w).
Proof. reflexivity. Qed.

Lemma nm_input_run prompt w :
  input prompt w
  = match w_stdin w with
    | l :: rest => (Ret l, set_stdin rest (add_stdout prompt w))
    | [] => (Raise (Exn EOFError "EOF when reading a line"), add_stdout prompt w)
    end.
Proof. reflexivity. Qed.

Lemma nm_makedirs_run p w :
  makedirs E p w = match env_fs E (w_fsops w) with
                   | Some e => (Raise e, bump_fsops w)
                   | None => (Ret tt, set_dirs (λ ds, {[p]} ∪ ds) (bump_fsops w))
                   end.
Proof. unfold makedirs, bind, fs_op. by destruct (env_fs E (w_fsops w)). Qed.

Lemma nm_open_w_run p w :
  open_w E p w = match env_fs E (w_fsops w) with
                 | Some e => (Raise e, bump_fsops w)
                 | None => (Ret tt, set_files (insert p "") (bump_fsops w))
                 end.
Proof. unfold open_w, bind, fs_op. by destruct (env_fs E (w_fsops w)). Qed.

Lemma nm_call_run {A} ev (r : reply A) w :
  call ev r w = match r with
                | Returns a => (Ret a, add_event (ev true) w)
                | Raises e => (Raise e, add_event (ev false) w)
                end.
Proof. unfold call. by destruct r. Qed.

Lemma ConnectHandler_run d w :
  ConnectHandler E d w
  = match nm_connect (env_conn E (w_conns w)) with
    | Returns _ =>
        (Ret (w_conns w), add_event (EvConnect (w_conns w) d true) (bump_conns w))
    | Raises e =>
        (Raise e, add_event (EvConnect (w_conns w) d false) (bump_conns w))
    end.
Proof.
  unfold ConnectHandler. by destruct (nm_connect (env_conn E (w_conns w))) as [[]|].
Qed.

End NetmikoRuns.

Ltac netmiko_world_simpl :=
  cbn [NetmikoConfig.w_files NetmikoConfig.w_dirs NetmikoConfig.w_log
       NetmikoConfig.w_stdout NetmikoConfig.w_stdin NetmikoConfig.w_trace
       NetmikoConfig.w_conns NetmikoConfig.w_clock NetmikoConfig.w_fsops
       NetmikoConfig.set_files NetmikoConfig.set_dirs NetmikoConfig.add_log
       NetmikoConfig.add_stdout NetmikoConfig.set_stdin NetmikoConfig.add_event
       NetmikoConfig.bump_conns NetmikoConfig.bump_clock
       NetmikoConfig.bump_fsops].

Ltac netmiko_prim :=
  unfold NetmikoConfig.enable, NetmikoConfig.send_command,
    NetmikoConfig.send_config_set, NetmikoConfig.save_config,
    NetmikoConfig.disconnect;
  first
    [ rewrite nm_log_run | rewrite nm_print_run | rewrite nm_now_run
    | rewrite nm_write_run | rewrite nm_input_run | rewrite nm_makedirs_run
    | rewrite nm_open_w_run | rewrite nm_call_run | rewrite ConnectHandler_run
    | rewrite getitem_run | rewrite ret_run ].

(** The answer of the environment at the head of the run: taken from a
    hypothesis when one tells it, by case analysis otherwise. *)
Ltac use_or_split r :=
  first [ match goal with H : r = _ |- _ => rewrite H end
        | destruct r eqn:? ].

Ltac netmiko_scrutinee :=
  match goal with
  | |- context [try_k _ _ (match ?r with _ => _ end)] => use_or_split r
  | |- context [bind_k _ (match ?r with _ => _ end)] => use_or_split r
  end.

(** One step of a run of the configuration script. *)
Ltac netmiko_step :=
  first
    [ rewrite try_bind_assoc
    | rewrite try_bind; netmiko_prim; netmiko_world_simpl;
      try netmiko_scrutinee; cbn [try_k]; netmiko_world_simpl
    | rewrite try_ret
    | rewrite bind_assoc
    | rewrite bind_run; netmiko_prim; netmiko_world_simpl;
      try netmiko_scrutinee; cbn [bind_k]; netmiko_world_simpl
    | rewrite ret_run ].

(** ** scripts/napalm_backup.py: properties *)

Section NapalmFacts.

Import NapalmBackup.

Variable E : env.

Ltac solve_is_Some :=
  solve [repeat (apply lookup_insert_is_Some'; first [left; reflexivity | right])].

Ltac explode_elem H :=
  repeat (apply elem_of_cons in H as [H|H];
          [first [discriminate H | injection H as ? ?; subst]|]);
  try (by apply elem_of_nil in H).


Lemma lookup_changed_insert {V} (m m0 : gmap string V) p q v :
  (<[q:=v]> m) !! p ≠ m0 !! p → p = q ∨ m !! p ≠ m0 !! p.
Proof.
  destruct (decide (p = q)) as [->|Hne]; [by left|].
  rewrite lookup_insert_ne by done. by right.
Qed.

(** [backup_device_config] always returns a result, for the host of the
    device record. *)
Lemma backup_device_config_returns d w :
  ∃ r w', backup_device_config E d w = (Ret r, w')
          ∧ result_hostname r = d !! "host".
Proof.
  unfold backup_device_config. cbv zeta.
  repeat napalm_step; eauto.
Qed.

(** C7: a successful backup reads the clock once, and every file it creates
    or changes is one of the artifacts of the host named with that one
    timestamp: the running configuration, the facts and the interfaces are
    there, and the startup configuration when the device has one. *)
Theorem artifacts_share_timestamp d w h dir ts files w' :
  backup_device_config E d w = (Ret (Success h dir ts files), w') →
  ∃ host,
    d !! "host" = Some host ∧ h = Some host
    ∧ dir = Py.path_join "backups" host
    ∧ ts = env_now E (w_clock w)
    ∧ w_clock w' = S (w_clock w)
    ∧ files = list_to_map
                [ ("running_config", artifact_path host "running" ts ".cfg");
                  ("facts", artifact_path host "facts" ts ".json");
                  ("interfaces", artifact_path host "interfaces" ts ".json") ]
    ∧ is_Some (w_files w' !! artifact_path host "running" ts ".cfg")
    ∧ is_Some (w_files w' !! artifact_path host "facts" ts ".json")
    ∧ is_Some (w_files w' !! artifact_path host "interfaces" ts ".json")
    ∧ (∀ cfg s,
          nb_get_config (env_conn E (w_conns w)) = Returns cfg →
          cfg !! "startup" = Some s → Py.truthy s = true →
          is_Some (w_files w' !! artifact_path host "startup" ts ".cfg"))
    ∧ (∀ p, w_files w' !! p ≠ w_files w !! p → p ∈ artifact_paths host ts).
Proof.
  unfold backup_device_config. cbv zeta.
  repeat napalm_step.
  all: try (intros Hrun; discriminate Hrun).
  all: intros Hrun; injection Hrun as <- <- <- <- <-.
  all: napalm_world_simpl.
  all: match goal with H : _ !! "host" = Some ?x |- _ => exists x end.
  all: unfold artifact_paths, artifact_path.
  all: repeat (split; [solve [reflexivity | solve_is_Some]|]).
  all: split; [intros cfg s' [= <-] Hs Ht; first [congruence | solve_is_Some]|].
  all: intros p Hp.
  all: repeat (apply lookup_changed_insert in Hp as [-> | Hp];
               [rewrite !elem_of_cons; auto 10|]).
  all: done.
Qed.


(** C10: for a device record without the key secret, every connection object
    constructed by [backup_device_config] gets the password of the record as
    its secret; and the object is constructed as soon as the driver is found
    and the record has a username and a password. *)
Theorem secret_defaults_to_password d w :
  d !! "secret" = None →
  (∀ k a ok,
      EvConnect k a ok
      ∈ new_events (w_trace w) (w_trace (backup_device_config E d w).2) →
      d !! "password" = Some (ca_secret a) ∧ ca_password a = ca_secret a)
  ∧ (∀ u p,
        d !! "username" = Some u → d !! "password" = Some p →
        is_ok (env_get_driver E (napalm_driver_of d)) = true →
        ∃ ok,
          EvConnect (w_conns w) (ConnArgs (d !! "host") u p p) ok
          ∈ new_events (w_trace w) (w_trace (backup_device_config E d w).2)).
Proof.
  intros Hsecret.
  destruct (backup_device_config E d w) as [o w'] eqn:Hrun.
  cbn [fst snd]. revert Hrun.
  unfold backup_device_config. cbv zeta. rewrite Hsecret. cbn [default].
  repeat napalm_step.
  all: intros [= <- <-]; napalm_world_simpl.
  all: rewrite <- ?app_assoc, new_events_app; cbn [app].
  all: split;
    [ intros k0 args0 ok0 Hin;
      repeat (apply elem_of_cons in Hin as [Hin|Hin];
              [first [discriminate Hin | injection Hin as -> -> ->]|]);
      [..|by apply elem_of_nil in Hin]; cbn [ca_secret ca_password];
      split; congruence
    | intros u p Hu Hp Hdrv ].
  all: try congruence.
  all: try discriminate Hdrv.
  all: eexists; rewrite !elem_of_cons.
  all: right; left; repeat f_equal; congruence.
Qed.

(** The loop of [main] yields one result per device, in order, whatever
    happens to the devices. *)
Lemma backup_one_returns d w host :
  d !! "host" = Some host →
  ∃ r w', backup_one E d w = (Ret r, w') ∧ result_hostname r = Some host.
Proof.
  intros Hhost. unfold backup_one.
  repeat napalm_step; [|congruence].
  destruct (backup_device_config_returns d
              (add_log (INFO, rule)
                 (add_log (INFO, "Backing up device: " +:+ s)
                    (add_log (INFO, String Py.LF rule) w))))
    as (r & w' & Hr & Hh).
  exists r, w'. split; [exact Hr|congruence].
Qed.

Lemma backup_loop_returns devices acc w :
  Forall (λ d : device, is_Some (d !! "host")) devices →
  ∃ rs w',
    for_append (backup_one E) devices acc w = (Ret (acc ++ rs), w')
    ∧ result_hostname <$> rs = (λ d : device, d !! "host") <$> devices.
Proof.
  intros Hall. revert acc w.
  induction Hall as [|d devices [host Hhost] _ IH]; intros acc w.
  - exists [], w. by rewrite app_nil_r.
  - destruct (backup_one_returns d w host Hhost) as (r & w1 & Hr & Hh).
    destruct (IH (acc ++ [r]) w1) as (rs & w' & Hrs & Hhs).
    exists (r :: rs), w'. split.
    + cbn [for_append]. rewrite bind_run, Hr. cbn [bind_k].
      rewrite Hrs. by rewrite <- app_assoc.
    + rewrite !fmap_cons. congruence.
Qed.

(** C5: for an inventory of N devices that each name their host, [main]
    reaches the end of its loop with N results, the i-th for the i-th device,
    each of them a success or a failure: no device stops the run. *)
Theorem backup_results_follow_inventory devices w :
  env_inventory E "config/devices.yml" = InvDocument (Some devices) →
  Forall (λ d : device, is_Some (d !! "host")) devices →
  env_fs E (w_fsops w) = None → env_fs E (S (w_fsops w)) = None →
  ∃ results w',
    main_backups E w = (Ret results, w')
    ∧ length results = length devices
    ∧ result_hostname <$> results = (λ d : device, d !! "host") <$> devices
    ∧ Forall (λ r, status r = "success" ∨ status r = "failed") results.
Proof.
  intros Hinv Hall Hfs0 Hfs1. unfold main_backups.
  do 2 napalm_step.
  rewrite bind_run, makedirs_run. napalm_world_simpl. rewrite Hfs0. cbn [bind_k].
  rewrite bind_run, makedirs_run. napalm_world_simpl. rewrite Hfs1. cbn [bind_k].
  rewrite bind_run. unfold load_device_inventory. rewrite Hinv.
  rewrite bind_run, log_run. cbn [bind_k]. rewrite ret_run. cbn [bind_k].
  napalm_step.
  match goal with |- context [for_append _ _ _ ?w0] =>
    destruct (backup_loop_returns devices [] w0 Hall) as (rs & w' & Hrs & Hhs)
  end.
  exists rs, w'. split; [exact Hrs|]. split; [|split; [exact Hhs|]].
  - apply (f_equal length) in Hhs. by rewrite !length_fmap in Hhs.
  - apply Forall_forall. intros [] _; [by left|by right].
Qed.

Lemma for_if_success_returns rs w :
  ∃ w', for_if is_success print_success rs w = (Ret tt, w').
Proof.
  revert w. induction rs as [|r rs IH]; intros w; [by exists w|].
  cbn [for_if]. rewrite bind_run.
  destruct r; cbn -[for_if]; apply IH.
Qed.

Lemma for_if_failed_returns rs w :
  ∃ w', for_if is_failed print_failed rs w = (Ret tt, w').
Proof.
  revert w. induction rs as [|r rs IH]; intros w; [by exists w|].
  cbn [for_if]. rewrite bind_run.
  destruct r; cbn -[for_if]; apply IH.
Qed.

Lemma failed_count_zero rs :
  (Z.of_nat (length rs)
   - Z.of_nat (length (filter (λ r, is_success r = true) rs)) =? 0)%Z
  = forallb is_success rs.
Proof.
  induction rs as [|r rs IH]; [done|].
  rewrite filter_cons. cbn [forallb].
  pose proof (length_filter (λ r, is_success r = true) rs) as Hle.
  destruct (is_success r) eqn:Hr.
  - rewrite decide_True by done. cbn [length andb]. rewrite <- IH.
    f_equal. lia.
  - rewrite decide_False by (by intros ?). cbn [length andb].
    apply Z.eqb_neq. lia.
Qed.

(** The summary always returns, with 0 when every result is a success and
    with 1 otherwise. *)
Lemma report_returns rs w :
  ∃ w', report rs w = (Ret (if forallb is_success rs then 0 else 1), w').
Proof.
  unfold report. cbv zeta. rewrite failed_count_zero.
  repeat (rewrite bind_run, print_run; cbn [bind_k]).
  rewrite bind_run.
  match goal with |- context [bind_k _ (?m ?w0)] =>
    assert (∃ w1, m w0 = (Ret tt, w1)) as [w1 ->]
  end.
  { case_match; [|by eexists].
    rewrite bind_run, print_run. cbn [bind_k]. apply for_if_success_returns. }
  cbn [bind_k]. rewrite bind_run.
  match goal with |- context [bind_k _ (?m ?w0)] =>
    assert (∃ w2, m w0 = (Ret tt, w2)) as [w2 ->]
  end.
  { case_match; [|by eexists].
    rewrite bind_run, print_run. cbn [bind_k]. apply for_if_failed_returns. }
  cbn [bind_k]. rewrite bind_run, log_run. cbn [bind_k]. by eexists.
Qed.

(** C9: when [main] has gone through its loop with the list [results], the
    process exits with status 0 if every result has status success, and with
    status 1 if some result has status failed. *)
Theorem exit_status_reflects_failures w results w1 :
  main_backups E w = (Ret results, w1) →
  (Forall (λ r, status r = "success") results →
   exit_status (main E w).1 = 0)
  ∧ (Exists (λ r, status r = "failed") results →
     exit_status (main E w).1 = 1).
Proof.
  intros Hloop. unfold main. rewrite bind_run, Hloop. cbn [bind_k].
  destruct (report_returns results w1) as [w2 ->]. cbn [fst exit_status].
  split.
  - intros Hall.
    assert (forallb is_success results = true) as ->; [|done].
    apply forallb_forall. intros r Hin%list_elem_of_In.
    rewrite Forall_forall in Hall.
    unfold is_success. apply bool_decide_eq_true. by apply Hall.
  - intros Hex.
    destruct (forallb is_success results) eqn:Hf; [|done].
    exfalso. rewrite forallb_forall in Hf.
    apply Exists_exists in Hex as (r & Hin & Hr).
    apply list_elem_of_In, Hf in Hin.
    unfold is_success in Hin. apply bool_decide_eq_true in Hin. congruence.
Qed.

End NapalmFacts.

(** ** scripts/napalm_backup.py: the driver table, and runs on concrete
    devices *)

Section NapalmExamples.

Import NapalmBackup Examples.

(** C6: the driver is a function of the device-type tag alone; each of the
    seven tags of the table resolves to the driver listed for it, and a
    record without a tag, or with any other tag, resolves to ios. *)
Theorem driver_resolver (d : device) :
  (∀ t drv,
      (t, drv) ∈ [ ("cisco_ios", "ios"); ("cisco_xe", "ios");
                   ("cisco_nxos", "nxos"); ("cisco_xr", "iosxr");
                   ("arista_eos", "eos"); ("juniper", "junos");
                   ("juniper_junos", "junos") ] →
      d !! "device_type" = Some t → napalm_driver_of d = drv)
  ∧ (d !! "device_type" = None → napalm_driver_of d = "ios")
  ∧ (∀ t,
        d !! "device_type" = Some t →
        t ∉ [ "cisco_ios"; "cisco_xe"; "cisco_nxos"; "cisco_xr";
              "arista_eos"; "juniper"; "juniper_junos" ] →
        napalm_driver_of d = "ios").
Proof.
  unfold napalm_driver_of, device_type_of.
  split; [|split].
  - intros t drv Hin Ht. rewrite Ht. cbn [default].
    repeat (apply elem_of_cons in Hin as [Hin|Hin];
            [injection Hin as -> ->; reflexivity|]).
    by apply elem_of_nil in Hin.
  - intros ->. reflexivity.
  - intros t Ht Hnot. rewrite Ht. cbn [default].
    unfold driver_map. by rewrite (not_elem_of_list_to_map_1 _ t).
Qed.

Lemma driver_resolver_witness :
  napalm_driver_of router = "nxos"
  ∧ napalm_driver_of ∅ = "ios"
  ∧ napalm_driver_of {[ "device_type" := "hp_procurve" ]} = "ios".
Proof.
  split; [|split].
  - apply (proj1 (driver_resolver router) "cisco_nxos" "nxos").
    + apply list_elem_of_In. simpl. auto.
    + reflexivity.
  - apply (proj1 (proj2 (driver_resolver ∅))). reflexivity.
  - apply (proj2 (proj2 (driver_resolver {[ "device_type" := "hp_procurve" ]}))
             "hp_procurve").
    + reflexivity.
    + intros Hin%list_elem_of_In. simpl in Hin.
      repeat (destruct Hin as [Hin|Hin]; [discriminate Hin|]). exact Hin.
Defined.

Lemma artifacts_share_timestamp_witness :
  (backup_device_config all_healthy router empty_world).1
  = Ret (Success (Some "r1") "backups/r1" "20240101_120000"
           (list_to_map
              [ ("running_config", "backups/r1/r1_running_20240101_120000.cfg");
                ("facts", "backups/r1/r1_facts_20240101_120000.json");
                ("interfaces", "backups/r1/r1_interfaces_20240101_120000.json") ]))
  ∧ w_clock (backup_device_config all_healthy router empty_world).2 = 1%nat
  ∧ is_Some (w_files (backup_device_config all_healthy router empty_world).2
             !! "backups/r1/r1_startup_20240101_120000.cfg").
Proof.
  assert (backup_device_config all_healthy router empty_world
          = (Ret (Success (Some "r1") "backups/r1" "20240101_120000"
                    (list_to_map
                       [ ("running_config", "backups/r1/r1_running_20240101_120000.cfg");
                         ("facts", "backups/r1/r1_facts_20240101_120000.json");
                         ("interfaces", "backups/r1/r1_interfaces_20240101_120000.json") ])),
             (backup_device_config all_healthy router empty_world).2)) as Hrun.
  { vm_compute. reflexivity. }
  destruct (artifacts_share_timestamp all_healthy router empty_world _ _ _ _ _ Hrun)
    as (host & Hhost & _ & _ & _ & Hclock & _ & _ & _ & _ & Hstartup & _).
  split; [by rewrite Hrun|]. split; [exact Hclock|].
  assert (host = "r1") as -> by (vm_compute in Hhost; congruence).
  eapply (Hstartup _ "hostname r1"); reflexivity.
Defined.



(** C2 does not hold of the code: when [get_facts] raises on an open
    session, [backup_device_config] returns the failed result and [close] has
    not been called on the session. *)
Lemma session_left_open_when_get_facts_raises :
  backup_device_config facts_failing router empty_world
  = (Ret (Failed (Some "r1") "Connection reset"),
     (backup_device_config facts_failing router empty_world).2)
  ∧ w_trace (backup_device_config facts_failing router empty_world).2
    = [ EvGetDriver "nxos" true;
        EvConnect 0 (ConnArgs (Some "r1") "admin" "pw" "pw") true;
        EvCall 0 MOpen true;
        EvCall 0 MGetFacts false ]
  ∧ ¬ sessions_closed facts_failing router empty_world.
Proof.
  split; [vm_compute; reflexivity|].
  assert (w_trace (backup_device_config facts_failing router empty_world).2
          = [ EvGetDriver "nxos" true;
              EvConnect 0 (ConnArgs (Some "r1") "admin" "pw" "pw") true;
              EvCall 0 MOpen true;
              EvCall 0 MGetFacts false ]) as Htrace
    by (vm_compute; reflexivity).
  split; [exact Htrace|].
  intros Hclosed. destruct (Hclosed 0%nat) as [ok Hin].
  - rewrite Htrace. apply list_elem_of_In. simpl. auto.
  - rewrite Htrace in Hin. apply list_elem_of_In in Hin. simpl in Hin.
    repeat (destruct Hin as [Hin|Hin]; [discriminate Hin|]). exact Hin.
Qed.

Lemma secret_defaults_to_password_witness :
  EvConnect 0 (ConnArgs (Some "r1") "admin" "pw" "pw")
    (is_ok (nb_init healthy))
  ∈ w_trace (backup_device_config all_healthy router empty_world).2.
Proof.
  assert (router !! "secret" = None) as Hsecret by reflexivity.
  destruct (proj2 (secret_defaults_to_password all_healthy router empty_world
                     Hsecret) "admin" "pw")
    as [ok Hin]; [reflexivity..|].
  destruct (proj1 (secret_defaults_to_password all_healthy router empty_world
                     Hsecret) _ _ _ Hin) as [_ _].
  apply list_elem_of_In. vm_compute. auto.
Defined.

Lemma backup_results_follow_inventory_witness :
  ∃ results w',
    main_backups first_failing empty_world = (Ret results, w')
    ∧ length results = 2%nat
    ∧ result_hostname <$> results = [Some "r1"; Some "r1"].
Proof.
  destruct (backup_results_follow_inventory first_failing [router; router]
              empty_world)
    as (results & w' & Hrun & Hlen & Hhosts & _).
  - reflexivity.
  - repeat constructor; by exists "r1".
  - reflexivity.
  - reflexivity.
  - exists results, w'. split; [exact Hrun|]. split; [exact Hlen|exact Hhosts].
Defined.

Lemma exit_status_reflects_failures_witness :
  exit_status (main first_failing empty_world).1 = 1
  ∧ exit_status (main all_healthy empty_world).1 = 0.
Proof.
  split.
  - assert (∃ r, main_backups first_failing empty_world
                 = (Ret [Failed (Some "r1") "Connection reset"; r],
                    (main_backups first_failing empty_world).2)) as [r Hrun].
    { eexists. vm_compute. reflexivity. }
    apply (proj2 (exit_status_reflects_failures first_failing empty_world _ _ Hrun)).
    apply Exists_cons_hd. reflexivity.
  - assert (∃ r, main_backups all_healthy empty_world
                 = (Ret [r], (main_backups all_healthy empty_world).2)
                 ∧ status r = "success") as (r & Hrun & Hr).
    { eexists. split; [vm_compute; reflexivity|reflexivity]. }
    apply (proj1 (exit_status_reflects_failures all_healthy empty_world _ _ Hrun)).
    repeat constructor. exact Hr.
Defined.

End NapalmExamples.

(** ** scripts/netmiko_config.py: the command list *)

Section CommandList.







End CommandList.

(** ** scripts/netmiko_config.py: properties *)

Section NetmikoFacts.

Import NetmikoConfig.

Variable E : env.

Ltac explode_elem H :=
  repeat (apply elem_of_cons in H as [H|H];
          [first [discriminate H | injection H as ? ? ?; subst]|]);
  try (by apply elem_of_nil in H).

(** [load_configuration] on a readable file yields the comprehension over its
    lines. *)
Lemma load_configuration_returns path text w :
  w_files w !! path = Some text →
  env_fs E (w_fsops w) = None →
  (load_configuration E path w).1
  = Ret (comprehension (Py.file_lines text)).
Proof.
  intros Hfile Hfs.
  unfold load_configuration, try_except_file_not_found, open_r, fs_op, bind.
  rewrite Hfs. netmiko_world_simpl. by rewrite Hfile.
Qed.

(** [load_configuration] touches neither the devices nor the terminal. *)
Lemma load_configuration_quiet path w :
  w_trace (load_configuration E path w).2 = w_trace w
  ∧ w_stdin (load_configuration E path w).2 = w_stdin w
  ∧ w_conns (load_configuration E path w).2 = w_conns w.
Proof.
  unfold load_configuration, try_except_file_not_found, open_r, fs_op, bind.
  destruct (env_fs E (w_fsops w)) as [e|]; netmiko_world_simpl.
  - destruct (decide (exc_kind e = FileNotFoundError)); done.
  - destruct (w_files w !! path); done.
Qed.



(** C4, as the code has it: when the lower-cased answer to the confirmation
    prompt is not the word yes, [main] makes no call to any device, opens no
    connection, and leaves through one of its two early returns, without a
    result list. *)
Theorem cancelled_run_touches_nothing w path confirm rest :
  w_stdin w = path :: confirm :: rest →
  Py.lower confirm ≠ "yes" →
  w_trace (main_push E w).2 = w_trace w
  ∧ w_conns (main_push E w).2 = w_conns w
  ∧ ∀ r, (main_push E w).1 = Ret r →
         (r = NoCommands ∨ r = Cancelled) ∧ results_of r = [].
Proof.
  intros Hstdin Hconfirm.
  destruct (main_push E w) as [o w'] eqn:Hrun.
  cbn [fst snd]. revert Hrun.
  unfold main_push.
  do 2 netmiko_step.
  netmiko_step; [intros [= <- <-]; by netmiko_world_simpl|].
  netmiko_step; [intros [= <- <-]; by netmiko_world_simpl|].
  rewrite bind_run. unfold load_device_inventory.
  destruct (env_inventory E "config/devices.yml") as [|msg|[devices|]].
  1-2: rewrite bind_run, nm_log_run; cbn [bind_k]; unfold sys_exit;
    cbn [bind_k]; intros [= <- <-]; by netmiko_world_simpl.
  2: { unfold raise; cbn [bind_k]. intros [= <- <-]. by netmiko_world_simpl. }
  do 2 netmiko_step. cbn [bind_k].
  rewrite bind_run, nm_input_run. netmiko_world_simpl. rewrite Hstdin.
  cbn [bind_k]. rewrite bind_run.
  match goal with |- context [load_configuration E path ?w0] =>
    destruct (load_configuration_quiet path w0) as (Ht & Hs & Hc);
    destruct (load_configuration E path w0) as [[cmds|e|c] w2]
  end.
  all: cbn [bind_k fst snd] in *;
    revert Ht Hs Hc; netmiko_world_simpl; intros Ht Hs Hc.
  2-3: intros [= <- <-]; by netmiko_world_simpl.
  destruct cmds as [|c0 cmds].
  { do 2 netmiko_step. intros [= <- <-]. netmiko_world_simpl.
    split; [done|]. split; [done|]. intros r [= <-]. by split; [left|]. }
  netmiko_step.
  rewrite bind_run, nm_input_run. netmiko_world_simpl. rewrite Hs.
  cbn [bind_k]. rewrite decide_True by done.
  do 2 netmiko_step. intros [= <- <-]. netmiko_world_simpl.
  split; [done|]. split; [done|]. intros r [= <-]. by split; [right|].
Qed.

(** [configure_device] on a record that names its host always returns, and
    always begins by asking for a connection. *)
Lemma configure_device_returns d cmds w host :
  d !! "host" = Some host →
  ∃ r w',
    configure_device E d cmds w = (Ret r, w')
    ∧ EvConnect (w_conns w) d (is_ok (nm_connect (env_conn E (w_conns w))))
      ∈ new_events (w_trace w) (w_trace w').
Proof.
  intros Hhost. unfold configure_device.
  repeat netmiko_step.
  all: do 2 eexists; split; [reflexivity|]; netmiko_world_simpl.
  all: rewrite <- ?app_assoc, new_events_app; cbn [app].
  all: apply elem_of_cons; by left.
Qed.

(** C8: when the backup taken before the change fails, the failure is logged
    with the host and the error, the result of the device records no backup,
    and [configure_device] is run all the same: it asks for its
    connection. *)
Theorem failed_backup_does_not_block_push d cmds w host w1 :
  d !! "host" = Some host →
  backup_configuration E d w = (Ret None, w1) →
  (∃ msg,
      last (w_log w1)
      = Some (ERROR, "Failed to backup configuration from " +:+ host +:+ ": "
                     +:+ msg))
  ∧ ∃ r w2,
      backup_and_configure E d cmds w = (Ret r, w2)
      ∧ pr_backup r = None
      ∧ pr_device r = host
      ∧ EvConnect (w_conns w1) d (is_ok (nm_connect (env_conn E (w_conns w1))))
        ∈ new_events (w_trace w1) (w_trace w2).
Proof.
  intros Hhost Hbackup. split.
  - revert Hbackup. unfold backup_configuration.
    repeat netmiko_step.
    all: try (intros Hrun; discriminate Hrun).
    all: intros [= <-]; netmiko_world_simpl.
    all: eexists; apply last_snoc.
  - destruct (configure_device_returns d cmds w1 host Hhost)
      as (r & w2 & Hconf & Hconn).
    exists (PushResult r host None), w2.
    unfold backup_and_configure.
    rewrite bind_run, Hbackup. cbn [bind_k].
    rewrite bind_run, Hconf. cbn [bind_k].
    rewrite bind_run, getitem_run, Hhost. cbn [bind_k].
    by rewrite ret_run.
Qed.

End NetmikoFacts.

(** ** scripts/netmiko_config.py: runs on concrete files and devices *)

Section NetmikoExamples.

Import NetmikoConfig PushExamples.



(** C4 as worded does not hold: the answer YES is not the word yes, and the
    run goes on to the devices. *)
Lemma upper_case_yes_proceeds :
  ¬ exact_yes_gate (push_env (λ _, reachable)) (push_world "YES").
Proof.
  intros Hgate.
  destruct (Hgate "config/vlan_config.txt" "YES" []) as [Htrace _].
  - reflexivity.
  - discriminate.
  - vm_compute in Htrace. discriminate Htrace.
Qed.

Lemma cancelled_run_touches_nothing_witness :
  w_trace (main_push (push_env (λ _, reachable)) (push_world "no")).2 = []
  ∧ w_conns (main_push (push_env (λ _, reachable)) (push_world "no")).2 = 0%nat.
Proof.
  destruct (cancelled_run_touches_nothing (push_env (λ _, reachable))
              (push_world "no") "config/vlan_config.txt" "no" [])
    as (Htrace & Hconns & _).
  - reflexivity.
  - vm_compute. discriminate.
  - by split.
Defined.

Lemma failed_backup_does_not_block_push_witness :
  ∃ r w2,
    backup_and_configure (push_env backup_refused) switch ["vlan 10"]
      (push_world "yes") = (Ret r, w2)
    ∧ pr_backup r = None ∧ pr_device r = "sw1".
Proof.
  assert (backup_configuration (push_env backup_refused) switch (push_world "yes")
          = (Ret None,
             (backup_configuration (push_env backup_refused) switch
                (push_world "yes")).2)) as Hbackup.
  { vm_compute. reflexivity. }
  destruct (failed_backup_does_not_block_push (push_env backup_refused) switch
              ["vlan 10"] (push_world "yes") "sw1" _ eq_refl Hbackup)
    as (_ & r & w2 & Hrun & Hnone & Hdev & _).
  exists r, w2. by split.
Defined.

End NetmikoExamples.

(** ** scripts/napalm_backup.py: further properties of one device run *)

Section BackupRun.

Import NapalmBackup.

Variable E : env.

(** What one run of [backup_device_config] does and does not do, read off
    every path through the function. *)
Lemma backup_run_summary d w :
  (w_conns (backup_device_config E d w).2 = w_conns w
   ∨ w_conns (backup_device_config E d w).2 = S (w_conns w))
  ∧ (w_clock (backup_device_config E d w).2 = w_clock w
     ∨ w_clock (backup_device_config E d w).2 = S (w_clock w))
  ∧ (∀ p,
        w_files (backup_device_config E d w).2 !! p ≠ w_files w !! p →
        ∃ host, d !! "host" = Some host
                ∧ p ∈ artifact_paths host (env_now E (w_clock w)))
  ∧ (∀ p,
        (∀ host, d !! "host" = Some host →
                 p ∉ artifact_paths host (env_now E (w_clock w))) →
        w_files (backup_device_config E d w).2 !! p = w_files w !! p)
  ∧ (∀ p, is_Some (w_files w !! p) →
          is_Some (w_files (backup_device_config E d w).2 !! p))
  ∧ (∀ h dir ts fs,
        (backup_device_config E d w).1 = Ret (Success h dir ts fs) →
        new_events (w_trace w) (w_trace (backup_device_config E d w).2)
        = [ EvGetDriver (napalm_driver_of d) true;
            EvConnect (w_conns w)
              (ConnArgs h (default "" (d !! "username"))
                 (default "" (d !! "password"))
                 (default (default "" (d !! "password")) (d !! "secret")))
              true;
            EvCall (w_conns w) MOpen true;
            EvCall (w_conns w) MGetFacts true;
            EvCall (w_conns w) MGetConfig true;
            EvCall (w_conns w) MGetInterfaces true;
            EvCall (w_conns w) MClose true ])
  ∧ (d !! "host" = None →
     (∃ err, (backup_device_config E d w).1 = Ret (Failed None err))
     ∧ w_files (backup_device_config E d w).2 = w_files w)
  ∧ (is_ok (env_get_driver E (napalm_driver_of d)) = true →
     d !! "username" = None ∨ d !! "password" = None →
     w_conns (backup_device_config E d w).2 = w_conns w
     ∧ ((backup_device_config E d w).1
        = Ret (Failed (d !! "host") "'username'")
        ∨ (backup_device_config E d w).1
          = Ret (Failed (d !! "host") "'password'")))
  ∧ (∀ e,
        env_get_driver E (napalm_driver_of d) = Raises e →
        (backup_device_config E d w).1 = Ret (Failed (d !! "host") (exc_str e))
        ∧ new_events (w_trace w) (w_trace (backup_device_config E d w).2)
          = [EvGetDriver (napalm_driver_of d) false]
        ∧ w_files (backup_device_config E d w).2 = w_files w)
  ∧ (∀ h err,
        (backup_device_config E d w).1 = Ret (Failed h err) →
        last (w_log (backup_device_config E d w).2)
        = Some (ERROR, "Failed to backup " +:+ Py.fmt (d !! "host") +:+ ": "
                       +:+ err)).
Proof.
  destruct (backup_device_config E d w) as [o w'] eqn:Hrun.
  cbn [fst snd]. revert Hrun.
  unfold backup_device_config. cbv zeta.
  repeat napalm_step.
  all: intros [= <- <-]; napalm_world_simpl.
  all: repeat apply conj.
  all: try solve [left; reflexivity | right; reflexivity].
  all: try solve [intros p Hp; by destruct Hp].
  all: try solve [intros p Hp; eexists; split; [reflexivity|];
                  unfold artifact_paths, artifact_path;
                  repeat (apply lookup_changed_insert in Hp as [-> | Hp];
                          [rewrite !elem_of_cons; auto 10|]);
                  done].
  all: try solve [intros p Hnot; reflexivity].
  all: try solve [intros p Hnot; pose proof (Hnot _ eq_refl) as Hn;
                  unfold artifact_paths, artifact_path in Hn;
                  rewrite !not_elem_of_cons in Hn;
                  destruct Hn as (? & ? & ? & ? & _);
                  repeat (rewrite lookup_insert_ne; [|congruence]);
                  reflexivity].
  all: try solve [intros p Hp;
                  repeat (apply lookup_insert_is_Some'; right); exact Hp].
  all: try solve [intros h dir ts fs Heq; discriminate Heq].
  all: try solve [intros h dir ts fs Heq; injection Heq as <- _ _ _;
                  rewrite <- !app_assoc, new_events_app; cbn [app default];
                  cbv [id]; repeat f_equal; congruence].
  all: try solve [intros Hn; discriminate Hn].
  all: try solve [intros Hn; rewrite ?Hn; split; [by eexists|reflexivity]].
  all: try solve [intros Hdrv [Hu|Hp]; discriminate].
  all: try solve [intros Hdrv [Hu|Hp]; try discriminate;
                  (split; [reflexivity|]);
                  first [left; reflexivity | right; reflexivity]].
  all: try solve [intros e0 He; discriminate He].
  all: try solve [intros e0 [= <-]; rewrite new_events_app; by repeat split].
  all: try solve [intros h err Heq; discriminate Heq].
  all: try solve [intros h err [= <- <-]; apply last_snoc].
Qed.


(** X1: On success the device library has been called exactly seven times, in
    this order: the driver is looked up, the connection object is
    constructed, and on that object [open], [get_facts], [get_config],
    [get_interfaces] and [close] are called once each, all returning. *)
Theorem successful_backup_call_sequence d w h dir ts fs :
  (backup_device_config E d w).1 = Ret (Success h dir ts fs) →
  new_events (w_trace w) (w_trace (backup_device_config E d w).2)
  = [ EvGetDriver (napalm_driver_of d) true;
      EvConnect (w_conns w)
        (ConnArgs h (default "" (d !! "username"))
           (default "" (d !! "password"))
           (default (default "" (d !! "password")) (d !! "secret")))
        true;
      EvCall (w_conns w) MOpen true;
      EvCall (w_conns w) MGetFacts true;
      EvCall (w_conns w) MGetConfig true;
      EvCall (w_conns w) MGetInterfaces true;
      EvCall (w_conns w) MClose true ].
Proof.
  destruct (backup_run_summary d w) as (_ & _ & _ & _ & _ & H & _).
  apply H.
Qed.


(** X3: A run removes no file, constructs at most one connection object and
    reads the clock at most once. *)
Theorem backup_never_removes_files d w :
  (∀ p, is_Some (w_files w !! p) →
        is_Some (w_files (backup_device_config E d w).2 !! p))
  ∧ (w_conns w ≤ w_conns (backup_device_config E d w).2 ≤ S (w_conns w))%nat
  ∧ (w_clock w ≤ w_clock (backup_device_config E d w).2 ≤ S (w_clock w))%nat.
Proof.
  destruct (backup_run_summary d w) as (Hc & Hk & _ & _ & H & _).
  split; [exact H|]. split; [destruct Hc as [-> | ->] | destruct Hk as [-> | ->]];
    lia.
Qed.




(** X7: Every failed result has been logged: the last log record of the run is
    the error naming the host and carrying the error detail of the
    result. *)
Theorem failed_backup_is_logged d w h err :
  (backup_device_config E d w).1 = Ret (Failed h err) →
  h = d !! "host"
  ∧ last (w_log (backup_device_config E d w).2)
    = Some (ERROR, "Failed to backup " +:+ Py.fmt (d !! "host") +:+ ": "
                   +:+ err).
Proof.
  intros Hres.
  destruct (backup_run_summary d w) as (_ & _ & _ & _ & _ & _ & _ & _ & _ & H).
  split; [|by apply (H h err)].
  destruct (backup_device_config_returns E d w) as (r & w' & Hrun & Hh).
  rewrite Hrun in Hres. injection Hres as ->. exact Hh.
Qed.

End BackupRun.

(** ** Paths of the artifacts *)

Section ArtifactPaths.

Import NapalmBackup.

Lemma length_append (a b : string) :
  String.length (a +:+ b) = (String.length a + String.length b)%nat.
Proof.
  induction a as [|c a IH]; [done|].
  rewrite append_cons. simpl. by rewrite IH.
Qed.

Lemma append_inj_r (b1 b2 c : string) : b1 +:+ c = b2 +:+ c → b1 = b2.
Proof.
  revert b2. induction b1 as [|x b1 IH]; intros [|y b2] Heq.
  - done.
  - apply (f_equal String.length) in Heq.
    rewrite !length_append in Heq. simpl in Heq. lia.
  - apply (f_equal String.length) in Heq.
    rewrite !length_append in Heq. simpl in Heq. lia.
  - rewrite !append_cons in Heq. injection Heq as -> Heq.
    f_equal. by apply IH.
Qed.

(** Two artifact paths of one host are equal only if they agree on what
    follows the host in the file name. *)
Lemma artifact_path_eq host k1 t1 e1 k2 t2 e2 :
  artifact_path host k1 t1 e1 = artifact_path host k2 t2 e2 →
  k1 +:+ "_" +:+ t1 +:+ e1 = k2 +:+ "_" +:+ t2 +:+ e2.
Proof.
  unfold artifact_path, artifact_name, Py.fmt.
  change (default "None" (Some host)) with host.
  generalize (Py.path_join "backups" host). intros dir.
  unfold Py.path_join.
  assert (∀ rest, Py.startswith "/" (host +:+ "_" +:+ rest)
                  = Py.startswith "/" (host +:+ "_")) as Hstart.
  { intros rest. destruct host as [|c host]; [done|].
    rewrite !append_cons. simpl. by destruct (decide ("/"%char = c)). }
  rewrite (Hstart (k1 +:+ "_" +:+ t1 +:+ e1)), (Hstart (k2 +:+ "_" +:+ t2 +:+ e2)).
  destruct (Py.startswith "/" (host +:+ "_")).
  - intros Heq%(inj (String.app host)). by apply (inj (String.app "_")) in Heq.
  - destruct (negb (Py.truthy dir) || Py.ends_with_slash dir).
    + intros Heq%(inj (String.app dir))%(inj (String.app host)).
      by apply (inj (String.app "_")) in Heq.
    + intros Heq%(inj (String.app dir))%(inj (String.app "/"))%(inj (String.app host)).
      by apply (inj (String.app "_")) in Heq.
Qed.

(** The artifacts of a host for two timestamps have no path in common unless
    the timestamps are the same. *)
Lemma artifact_paths_disjoint host ts1 ts2 p :
  p ∈ artifact_paths host ts1 → p ∈ artifact_paths host ts2 → ts1 = ts2.
Proof.
  unfold artifact_paths. rewrite !elem_of_cons, !elem_of_nil.
  intros [->|[->|[->|[->|[]]]]] [H|[H|[H|[H|[]]]]];
    apply artifact_path_eq in H;
    first [ discriminate H
          | injection H as H;
            first [ by apply (append_inj_r _ _ ".cfg")
                  | by apply (append_inj_r _ _ ".json") ] ].
Qed.

Variable E : env.

(** X8: A run leaves alone the artifacts that an earlier run of the same device
    wrote under another timestamp: they are neither overwritten nor
    removed. *)
Theorem earlier_artifacts_untouched d w host ts0 p :
  d !! "host" = Some host →
  ts0 ≠ env_now E (w_clock w) →
  p ∈ artifact_paths host ts0 →
  w_files (backup_device_config E d w).2 !! p = w_files w !! p.
Proof.
  intros Hhost Hts Hp.
  destruct (backup_run_summary E d w) as (_ & _ & _ & H & _).
  apply H. intros host' Hhost' Hp'.
  assert (host' = host) as -> by congruence.
  apply Hts. by apply (artifact_paths_disjoint host ts0 _ p).
Qed.


End ArtifactPaths.

(** ** scripts/napalm_backup.py: further properties of [main] *)

Section BackupMain.

Import NapalmBackup.

Variable E : env.


Lemma backup_one_unfold d w host :
  d !! "host" = Some host →
  backup_one E d w
  = backup_device_config E d
      (add_log (INFO, rule)
         (add_log (INFO, "Backing up device: " +:+ host)
            (add_log (INFO, String Py.LF rule) w))).
Proof.
  intros Hhost. unfold backup_one.
  rewrite bind_run, log_run. cbn [bind_k].
  rewrite bind_run, getitem_run, Hhost. cbn [bind_k].
  rewrite bind_run, log_run. cbn [bind_k].
  by rewrite bind_run, log_run.
Qed.

Lemma backup_loop_aborts pre d post acc w :
  Forall (λ d : device, is_Some (d !! "host")) pre →
  d !! "host" = None →
  ∃ w',
    for_append (backup_one E) (pre ++ d :: post) acc w
    = (Raise (key_error "host"), w')
    ∧ (w_conns w' ≤ w_conns w + length pre)%nat.
Proof.
  intros Hpre Hd. revert acc w.
  induction Hpre as [|d0 pre [host Hhost] _ IH]; intros acc w.
  - cbn [app for_append]. unfold backup_one.
    rewrite bind_run, bind_run, log_run. cbn [bind_k].
    rewrite bind_run, getitem_run, Hd. cbn [bind_k].
    eexists. split; [reflexivity|]. cbn. lia.
  - cbn [app for_append length]. rewrite bind_run.
    rewrite (backup_one_unfold d0 w host Hhost).
    match goal with |- context [backup_device_config E d0 ?w0] =>
      destruct (backup_device_config_returns E d0 w0) as (r & w1 & Hr & _);
      destruct (backup_run_summary E d0 w0) as (Hconns & _)
    end.
    rewrite Hr in *. cbn [bind_k snd] in *.
    destruct (IH (acc ++ [r]) w1) as (w' & Hrun & Hle).
    exists w'. split; [exact Hrun|]. cbn in Hconns.
    destruct Hconns as [Hconns | Hconns]; lia.
Qed.

(** X11: A device record without the key host stops the whole run: [main] ends
    with the [KeyError] for host, so the process exits with status 1; the
    results of the devices before it are lost and the devices after it are
    never contacted. *)
Theorem nameless_device_aborts_run pre d post w :
  env_inventory E "config/devices.yml" = InvDocument (Some (pre ++ d :: post)) →
  Forall (λ d : device, is_Some (d !! "host")) pre →
  d !! "host" = None →
  env_fs E (w_fsops w) = None → env_fs E (S (w_fsops w)) = None →
  (main E w).1 = Raise (key_error "host")
  ∧ exit_status (main E w).1 = 1
  ∧ (w_conns (main E w).2 ≤ w_conns w + length pre)%nat.
Proof.
  intros Hinv Hpre Hd Hfs0 Hfs1.
  assert (∃ w', main E w = (Raise (key_error "host"), w')
                ∧ (w_conns w' ≤ w_conns w + length pre)%nat)
    as (w' & -> & Hle); [|by cbn].
  unfold main. rewrite bind_run. unfold main_backups.
  do 2 napalm_step.
  rewrite bind_run, makedirs_run. napalm_world_simpl. rewrite Hfs0. cbn [bind_k].
  rewrite bind_run, makedirs_run. napalm_world_simpl. rewrite Hfs1. cbn [bind_k].
  rewrite bind_run. unfold load_device_inventory. rewrite Hinv.
  rewrite bind_run, log_run. cbn [bind_k]. rewrite ret_run. cbn [bind_k].
  napalm_step.
  match goal with |- context [for_append _ _ _ ?w0] =>
    destruct (backup_loop_aborts pre d post [] w0 Hpre Hd) as (w' & -> & Hle)
  end.
  exists w'. split; [reflexivity|]. revert Hle. by napalm_world_simpl.
Qed.

End BackupMain.

(** ** scripts/napalm_backup.py: [compare_configs] *)

Section CompareFacts.

Import NapalmBackup BackupCompare.

Variable read_file : string → reply string.

(** X12: When both backups can be read, the verdict is no change exactly when the
    two texts are equal and change exactly when they differ, and it does not
    depend on which of the two is given as the current one. *)
Theorem compare_configs_verdict device cur prev c1 c2 w :
  Py.truthy cur = true → Py.truthy prev = true →
  read_file cur = Returns c1 → read_file prev = Returns c2 →
  ((compare_configs read_file device cur (Some prev) w).1
   = Ret "No changes detected" ↔ c1 = c2)
  ∧ ((compare_configs read_file device cur (Some prev) w).1
     = Ret "Changes detected" ↔ c1 ≠ c2)
  ∧ (compare_configs read_file device prev (Some cur) w).1
    = (compare_configs read_file device cur (Some prev) w).1.
Proof.
  intros Hcur Hprev Hc1 Hc2.
  assert (∀ a b ca cb,
             Py.truthy b = true →
             read_file a = Returns ca → read_file b = Returns cb →
             (compare_configs read_file device a (Some b) w).1
             = Ret (if decide (ca = cb) then "No changes detected"
                    else "Changes detected")) as Hrun.
  { intros a b ca cb Hb Ha Hrb.
    unfold compare_configs. rewrite Hb. cbn [negb].
    rewrite try_bind, Ha. cbn [of_reply try_k]. rewrite ret_run. cbn [try_k].
    rewrite try_bind, Hrb. cbn [of_reply try_k]. rewrite ret_run. cbn [try_k].
    by destruct (decide (ca = cb)). }
  rewrite (Hrun cur prev c1 c2), (Hrun prev cur c2 c1) by done.
  destruct (decide (c1 = c2)) as [Heq|Hne].
  - rewrite decide_True by done. split; [done|]. split; [|done].
    split; [discriminate|done].
  - rewrite decide_False by (by intros ?). split; [|done].
    split; [discriminate|done].
Qed.

(** X13: [compare_configs] never raises.  Without a previous backup (none given,
    or the empty path) it answers so and logs nothing; when a backup cannot
    be read, the answer is the comparison failure with the text of the error
    of the first file that failed, the current one being read first, and
    that error is logged. *)
Theorem compare_configs_never_raises device cur prev w :
  ∃ msg w',
    compare_configs read_file device cur prev w = (Ret msg, w')
    ∧ (prev = None ∨ prev = Some "" →
       msg = "No previous backup available for comparison" ∧ w' = w)
    ∧ (∀ p e,
          prev = Some p → Py.truthy p = true →
          read_file cur = Raises e
          ∨ (is_ok (read_file cur) = true ∧ read_file p = Raises e) →
          msg = "Comparison failed: " +:+ exc_str e
          ∧ last (w_log w')
            = Some (ERROR, "Failed to compare configurations: " +:+ exc_str e)).
Proof.
  unfold compare_configs.
  destruct prev as [p|].
  2: { do 2 eexists. split; [reflexivity|]. split; [done|]. by intros p e0 [=]. }
  destruct (Py.truthy p) eqn:Hp; cbn [negb].
  2: { do 2 eexists. split; [reflexivity|]. split; [done|].
       intros p' e0 [= <-]. congruence. }
  rewrite try_bind.
  destruct (read_file cur) as [c1|e1] eqn:Hc1; cbn [of_reply try_k].
  - rewrite ret_run. cbn [try_k]. rewrite try_bind.
    destruct (read_file p) as [c2|e2] eqn:Hc2; cbn [of_reply try_k].
    + rewrite ret_run. cbn [try_k].
      destruct (decide (c1 = c2)); do 2 eexists.
      all: split; [reflexivity|]. 
      all: split; [by intros [[=]|[= ->]]|].
      all: intros p' e0 [= <-] _ [[=]|[_ Hr]]; congruence.
    + unfold raise. cbn [try_k]. do 2 eexists. split; [reflexivity|].
      split; [by intros [[=]|[= ->]]|].
      intros p' e0 [= <-] _ [[=]|[_ Hr]].
      assert (e0 = e2) as -> by congruence. split; [done|]. apply last_snoc.
  - unfold raise. cbn [try_k]. do 2 eexists. split; [reflexivity|].
    split; [by intros [[=]|[= ->]]|].
    intros p' e0 [= <-] _ [[= <-]|[[=] _]].
    split; [done|]. apply last_snoc.
Qed.

End CompareFacts.

(** ** scripts/netmiko_config.py: further properties of one device *)

Section PushRun.

Import NetmikoConfig.

Variable E : env.

Ltac explode_elem H :=
  repeat (apply elem_of_cons in H as [H|H];
          [first [discriminate H | injection H as ? ?; subst
                 | injection H as ? ? ?; subst ]|]);
  try (by apply elem_of_nil in H).

(** What one run of [configure_device] does and does not do, read off every
    path through the function. *)
Lemma configure_run_summary d cmds w :
  (∀ out sv,
      (configure_device E d cmds w).1 = Ret (Success out sv) →
      new_events (w_trace w) (w_trace (configure_device E d cmds w).2)
      = [ EvConnect (w_conns w) d true;
          EvEnable (w_conns w) true;
          EvSendConfigSet (w_conns w) cmds true;
          EvSaveConfig (w_conns w) true;
          EvDisconnect (w_conns w) true ]
      ∧ nm_send_config_set (env_conn E (w_conns w)) cmds = Returns out
      ∧ nm_save_config (env_conn E (w_conns w)) = Returns sv)
  ∧ (∀ k ok,
        EvSaveConfig k ok
        ∈ new_events (w_trace w) (w_trace (configure_device E d cmds w).2) →
        EvSendConfigSet k cmds true
        ∈ new_events (w_trace w) (w_trace (configure_device E d cmds w).2))
  ∧ (∀ k ok,
        EvDisconnect k ok
        ∈ new_events (w_trace w) (w_trace (configure_device E d cmds w).2) →
        EvSaveConfig k true
        ∈ new_events (w_trace w) (w_trace (configure_device E d cmds w).2))
  ∧ (∀ e,
        is_Some (d !! "host") →
        nm_connect (env_conn E (w_conns w)) = Raises e →
        (configure_device E d cmds w).1 = Ret (Failed (exc_str e))
        ∧ new_events (w_trace w) (w_trace (configure_device E d cmds w).2)
          = [EvConnect (w_conns w) d false])
  ∧ (d !! "host" = None →
     (configure_device E d cmds w).1 = Raise (key_error "host")
     ∧ w_trace (configure_device E d cmds w).2 = w_trace w
     ∧ w_conns (configure_device E d cmds w).2 = w_conns w)
  ∧ (∀ err,
        (configure_device E d cmds w).1 = Ret (Failed err) →
        ∃ host,
          d !! "host" = Some host
          ∧ last (w_log (configure_device E d cmds w).2)
            = Some (ERROR, "Failed to configure " +:+ host +:+ ": " +:+ err))
  ∧ w_files (configure_device E d cmds w).2 = w_files w
  ∧ (is_Some (d !! "host") →
     (∃ r, (configure_device E d cmds w).1 = Ret r)
     ∧ w_conns (configure_device E d cmds w).2 = S (w_conns w)).
Proof.
  destruct (configure_device E d cmds w) as [o w'] eqn:Hrun.
  cbn [fst snd]. revert Hrun.
  unfold configure_device.
  repeat netmiko_step.
  all: intros [= <- <-]; netmiko_world_simpl.
  all: rewrite <- ?app_assoc, ?new_events_app, ?new_events_refl; cbn [app].
  all: repeat apply conj.
  all: try solve [intros out sv Heq; discriminate Heq].
  all: try solve [intros out sv [= <- <-]; by repeat split].
  all: try solve [intros k ok Hin; explode_elem Hin;
                  rewrite !elem_of_cons; auto 10].
  all: try solve [intros e0 Hh He; discriminate He].
  all: try solve [intros e0 [h Hh] [= <-]; by split].
  all: try solve [intros e0 [h Hh] He; discriminate Hh].
  all: try solve [intros Hn; discriminate Hn].
  all: try solve [intros Hn; by repeat split].
  all: try solve [intros err Heq; discriminate Heq].
  all: try solve [intros err [= <-]; eexists; split; [reflexivity|];
                  by rewrite last_app_cons].
  all: try reflexivity.
  all: try solve [intros [h Hh]; discriminate Hh].
  all: try solve [intros _; split; [by eexists|reflexivity]].
Qed.

(** What one run of [backup_configuration] does, read off every path through
    the function. *)
Lemma backup_configuration_summary d w :
  (∀ path,
      (backup_configuration E d w).1 = Ret (Some path) →
      ∃ host cfg,
        d !! "host" = Some host
        ∧ path = "backups" +:+ "/" +:+ host +:+ "_"
                 +:+ env_now E (w_clock w) +:+ ".cfg"
        ∧ nm_send_command (env_conn E (w_conns w)) "show running-config"
          = Returns cfg
        ∧ w_files (backup_configuration E d w).2 !! path = Some cfg
        ∧ new_events (w_trace w) (w_trace (backup_configuration E d w).2)
          = [ EvConnect (w_conns w) d true;
              EvEnable (w_conns w) true;
              EvSendCommand (w_conns w) "show running-config" true;
              EvDisconnect (w_conns w) true ])
  ∧ (d !! "host" = None →
     (backup_configuration E d w).1 = Raise (key_error "host"))
  ∧ (∀ p,
        w_files (backup_configuration E d w).2 !! p ≠ w_files w !! p →
        ∃ host,
          d !! "host" = Some host
          ∧ p = "backups" +:+ "/" +:+ host +:+ "_"
                +:+ env_now E (w_clock w) +:+ ".cfg")
  ∧ (is_Some (d !! "host") →
     (∃ r, (backup_configuration E d w).1 = Ret r)
     ∧ w_conns (backup_configuration E d w).2 = S (w_conns w)
     ∧ w_stdin (backup_configuration E d w).2 = w_stdin w).
Proof.
  destruct (backup_configuration E d w) as [o w'] eqn:Hrun.
  cbn [fst snd]. revert Hrun.
  unfold backup_configuration.
  repeat netmiko_step.
  all: intros [= <- <-]; netmiko_world_simpl.
  all: rewrite <- ?app_assoc, ?new_events_app, ?new_events_refl; cbn [app].
  all: repeat apply conj.
  all: try solve [intros path Heq; discriminate Heq].
  all: try solve [intros path [= <-]; do 2 eexists;
                  split; [reflexivity|]; split; [reflexivity|];
                  split; [reflexivity|]; split; [|reflexivity];
                  apply lookup_insert_eq].
  all: try solve [intros Hn; discriminate Hn].
  all: try solve [intros Hn; reflexivity].
  all: try solve [intros p Hp; by destruct Hp].
  all: try solve [intros p Hp; eexists; split; [reflexivity|];
                  repeat (apply lookup_changed_insert in Hp as [-> | Hp];
                          [reflexivity|]);
                  done].
  all: try solve [intros [h Hh]; discriminate Hh].
  all: try solve [intros _; split; [by eexists|by split]].
Qed.

(** X14: A successful change goes through the device in five calls, in this
    order and each returning: connect, enable, one [send_config_set] with the
    commands, [save_config], disconnect; the result carries what the device
    answered to the commands and to the save. *)
Theorem successful_push_call_sequence d cmds w out sv :
  (configure_device E d cmds w).1 = Ret (Success out sv) →
  new_events (w_trace w) (w_trace (configure_device E d cmds w).2)
  = [ EvConnect (w_conns w) d true;
      EvEnable (w_conns w) true;
      EvSendConfigSet (w_conns w) cmds true;
      EvSaveConfig (w_conns w) true;
      EvDisconnect (w_conns w) true ]
  ∧ nm_send_config_set (env_conn E (w_conns w)) cmds = Returns out
  ∧ nm_save_config (env_conn E (w_conns w)) = Returns sv.
Proof.
  destruct (configure_run_summary d cmds w) as (H & _). apply H.
Qed.


(** X16: A refused connection gives the failed result with the text of the
    connection error; nothing else is asked of the device. *)
Theorem refused_connection_gives_failed_result d cmds w e :
  is_Some (d !! "host") →
  nm_connect (env_conn E (w_conns w)) = Raises e →
  (configure_device E d cmds w).1 = Ret (Failed (exc_str e))
  ∧ new_events (w_trace w) (w_trace (configure_device E d cmds w).2)
    = [EvConnect (w_conns w) d false].
Proof.
  destruct (configure_run_summary d cmds w) as (_ & _ & _ & H & _). apply H.
Qed.

(** X17: For a device record without the key host, the handler of
    [configure_device] itself fails: the [KeyError] for host leaves the
    function, and no connection has been asked for. *)
Theorem configure_device_without_host_raises d cmds w :
  d !! "host" = None →
  (configure_device E d cmds w).1 = Raise (key_error "host")
  ∧ w_trace (configure_device E d cmds w).2 = w_trace w
  ∧ w_conns (configure_device E d cmds w).2 = w_conns w.
Proof.
  destruct (configure_run_summary d cmds w) as (_ & _ & _ & _ & H & _).
  apply H.
Qed.

(** X18: Every failed result of [configure_device] has been logged: the last log
    record is the error naming the host and carrying the error detail of the
    result. *)
Theorem failed_push_is_logged d cmds w err :
  (configure_device E d cmds w).1 = Ret (Failed err) →
  ∃ host,
    d !! "host" = Some host
    ∧ last (w_log (configure_device E d cmds w).2)
      = Some (ERROR, "Failed to configure " +:+ host +:+ ": " +:+ err).
Proof.
  destruct (configure_run_summary d cmds w) as (_ & _ & _ & _ & _ & H & _).
  apply H.
Qed.

(** X19: When [backup_configuration] returns a path, the path is
    backups/host_timestamp.cfg for the host of the record and the timestamp
    read in that run, the file at that path holds what the device answered
    to show running-config, and the session has been disconnected. *)
Theorem pre_change_backup_holds_running_config d w path :
  (backup_configuration E d w).1 = Ret (Some path) →
  ∃ host cfg,
    d !! "host" = Some host
    ∧ path = "backups" +:+ "/" +:+ host +:+ "_"
             +:+ env_now E (w_clock w) +:+ ".cfg"
    ∧ nm_send_command (env_conn E (w_conns w)) "show running-config"
      = Returns cfg
    ∧ w_files (backup_configuration E d w).2 !! path = Some cfg
    ∧ new_events (w_trace w) (w_trace (backup_configuration E d w).2)
      = [ EvConnect (w_conns w) d true;
          EvEnable (w_conns w) true;
          EvSendCommand (w_conns w) "show running-config" true;
          EvDisconnect (w_conns w) true ].
Proof.
  destruct (backup_configuration_summary d w) as (H & _). apply H.
Qed.


(** X21: For a device record without the key host [backup_configuration] never
    returns: the [KeyError] for host leaves the function. *)
Theorem backup_configuration_without_host_raises d w :
  d !! "host" = None →
  (backup_configuration E d w).1 = Raise (key_error "host").
Proof.
  destruct (backup_configuration_summary d w) as (_ & H & _). apply H.
Qed.

(** X22: When everything works but the disconnect at the end, the backup file is
    on disk with the running configuration, and yet [backup_configuration]
    returns [None]: the result of the device will say that there is no
    backup. *)
Theorem backup_written_but_reported_missing d w host cfg e :
  d !! "host" = Some host →
  nm_connect (env_conn E (w_conns w)) = Returns tt →
  nm_enable (env_conn E (w_conns w)) = Returns tt →
  nm_send_command (env_conn E (w_conns w)) "show running-config" = Returns cfg →
  env_fs E (w_fsops w) = None →
  env_fs E (S (w_fsops w)) = None →
  nm_disconnect (env_conn E (w_conns w)) = Raises e →
  (backup_configuration E d w).1 = Ret None
  ∧ w_files (backup_configuration E d w).2
    !! ("backups" +:+ "/" +:+ host +:+ "_" +:+ env_now E (w_clock w) +:+ ".cfg")
    = Some cfg.
Proof.
  intros Hhost Hconn Hen Hcmd Hfs0 Hfs1 Hdis.
  unfold backup_configuration.
  repeat netmiko_step.
  cbn [fst snd]. netmiko_world_simpl. split; [reflexivity|].
  apply lookup_insert_eq.
Qed.

End PushRun.

(** ** scripts/netmiko_config.py: further properties of [main] *)

Section PushMain.

Import NetmikoConfig.

Variable E : env.

Lemma push_one_returns cmds d w host :
  d !! "host" = Some host →
  ∃ r w',
    push_one E cmds d w = (Ret r, w')
    ∧ pr_device r = host
    ∧ w_conns w' = S (S (w_conns w)).
Proof.
  intros Hhost. unfold push_one, banner, backup_and_configure.
  repeat netmiko_step.
  rewrite bind_run.
  match goal with |- context [backup_configuration E d ?w0] =>
    destruct (backup_configuration_summary E d w0) as (_ & _ & _ & Hb);
    destruct Hb as ([b Hb] & Hbc & _); [by eexists|];
    destruct (backup_configuration E d w0) as [ob w1]
  end.
  cbn [fst snd] in *. rewrite Hb. cbn [bind_k]. rewrite bind_run.
  destruct (configure_run_summary E d cmds w1)
    as (_ & _ & _ & _ & _ & _ & _ & Hc).
  destruct Hc as ([r Hr] & Hcc); [by eexists|].
  destruct (configure_device E d cmds w1) as [oc w2].
  cbn [fst snd] in *. rewrite Hr. cbn [bind_k].
  do 2 netmiko_step.
  do 2 eexists. split; [reflexivity|]. split; [reflexivity|].
  rewrite Hcc, Hbc. by netmiko_world_simpl.
Qed.

Lemma push_loop_returns cmds devices acc w :
  Forall (λ d : device, is_Some (d !! "host")) devices →
  ∃ rs w',
    for_append (push_one E cmds) devices acc w = (Ret (acc ++ rs), w')
    ∧ Some <$> (pr_device <$> rs) = (λ d : device, d !! "host") <$> devices
    ∧ w_conns w' = (w_conns w + 2 * length devices)%nat.
Proof.
  intros Hall. revert acc w.
  induction Hall as [|d devices [host Hhost] _ IH]; intros acc w.
  - exists [], w. rewrite app_nil_r. cbn. split; [done|]. split; [done|]. lia.
  - destruct (push_one_returns cmds d w host Hhost) as (r & w1 & Hr & Hd & Hc).
    destruct (IH (acc ++ [r]) w1) as (rs & w' & Hrs & Hhs & Hcs).
    exists (r :: rs), w'. split; [|split].
    + cbn [for_append]. rewrite bind_run, Hr. cbn [bind_k].
      rewrite Hrs. by rewrite <- app_assoc.
    + rewrite !fmap_cons. congruence.
    + rewrite Hcs, Hc. cbn [length]. lia.
Qed.

(** How [main] ends once the inventory and the commands are loaded: by the
    answer to the confirmation. *)
Lemma push_run_outcome devices w path confirm rest text :
  env_inventory E "config/devices.yml" = InvDocument (Some devices) →
  Forall (λ d : device, is_Some (d !! "host")) devices →
  env_fs E (w_fsops w) = None →
  env_fs E (S (w_fsops w)) = None →
  env_fs E (S (S (w_fsops w))) = None →
  w_stdin w = path :: confirm :: rest →
  w_files w !! path = Some text →
  comprehension (Py.file_lines text) ≠ [] →
  (Py.lower confirm = "yes" →
   ∃ results,
     (main_push E w).1 = Ret (Completed results)
     ∧ length results = length devices
     ∧ Some <$> (pr_device <$> results)
       = (λ d : device, d !! "host") <$> devices
     ∧ w_conns (main_push E w).2 = (w_conns w + 2 * length devices)%nat)
  ∧ (Py.lower confirm ≠ "yes" → (main_push E w).1 = Ret Cancelled).
Proof.
  intros Hinv Hall Hfs0 Hfs1 Hfs2 Hstdin Hfile Hcmds.
  unfold main_push.
  do 4 netmiko_step.
  rewrite bind_run. unfold load_device_inventory. rewrite Hinv.
  do 2 netmiko_step. cbn [bind_k].
  netmiko_step. rewrite bind_run.
  match goal with |- context [load_configuration E path ?w0] =>
    pose proof (load_configuration_returns E path text w0) as Hload;
    destruct (load_configuration_quiet E path w0) as (_ & Hs & Hc);
    destruct (load_configuration E path w0) as [oc w2]
  end.
  cbn [fst snd] in *. revert Hload Hs Hc. netmiko_world_simpl.
  intros Hload Hs Hc. rewrite Hload by done. cbn [bind_k].
  destruct (comprehension (Py.file_lines text)) as [|c cmds] eqn:Hlist; [done|].
  netmiko_step.
  rewrite bind_run, nm_input_run. netmiko_world_simpl. rewrite Hs.
  cbn [bind_k]. split.
  - intros Hyes. rewrite decide_False by (by intros ?).
    rewrite bind_run.
    match goal with |- context [for_append _ _ _ ?w0] =>
      destruct (push_loop_returns (c :: cmds) devices [] w0 Hall)
        as (rs & w' & Hrs & Hhs & Hcs)
    end.
    rewrite Hrs. cbn [bind_k app fst snd]. rewrite ret_run. cbn [fst snd].
    exists rs. split; [reflexivity|]. split; [|split; [exact Hhs|]].
    + apply (f_equal length) in Hhs. by rewrite !length_fmap in Hhs.
    + rewrite Hcs. netmiko_world_simpl. by rewrite Hc.
  - intros Hno. rewrite decide_True by done.
    by do 2 netmiko_step.
Qed.

(** X23: With commands to send and an affirmative answer, [main] goes through the
    whole inventory: one result per device, in inventory order and naming
    its host, whatever the devices answer, and two connections asked for per
    device (one for the backup, one for the change). *)
Theorem push_results_follow_inventory devices w path confirm rest text :
  env_inventory E "config/devices.yml" = InvDocument (Some devices) →
  Forall (λ d : device, is_Some (d !! "host")) devices →
  env_fs E (w_fsops w) = None →
  env_fs E (S (w_fsops w)) = None →
  env_fs E (S (S (w_fsops w))) = None →
  w_stdin w = path :: confirm :: rest →
  w_files w !! path = Some text →
  comprehension (Py.file_lines text) ≠ [] →
  Py.lower confirm = "yes" →
  ∃ results,
    (main_push E w).1 = Ret (Completed results)
    ∧ length results = length devices
    ∧ Some <$> (pr_device <$> results)
      = (λ d : device, d !! "host") <$> devices
    ∧ w_conns (main_push E w).2 = (w_conns w + 2 * length devices)%nat.
Proof.
  intros Hinv Hall Hfs0 Hfs1 Hfs2 Hstdin Hfile Hcmds Hyes.
  by apply (push_run_outcome devices w path confirm rest text).
Qed.

(** X27: Once the inventory and the commands are loaded, the answers that let
    [main] go on to the devices are exactly the eight spellings of yes in
    upper and lower case; on any other answer [main] returns at the
    confirmation. *)
Theorem gate_accepts_case_variants_of_yes devices w path confirm rest text :
  env_inventory E "config/devices.yml" = InvDocument (Some devices) →
  Forall (λ d : device, is_Some (d !! "host")) devices →
  env_fs E (w_fsops w) = None →
  env_fs E (S (w_fsops w)) = None →
  env_fs E (S (S (w_fsops w))) = None →
  w_stdin w = path :: confirm :: rest →
  w_files w !! path = Some text →
  comprehension (Py.file_lines text) ≠ [] →
  ((∃ results, (main_push E w).1 = Ret (Completed results))
   ↔ confirm ∈ ["yes"; "yeS"; "yEs"; "yES"; "Yes"; "YeS"; "YEs"; "YES"])
  ∧ ((main_push E w).1 = Ret Cancelled
     ↔ confirm ∉ ["yes"; "yeS"; "yEs"; "yES"; "Yes"; "YeS"; "YEs"; "YES"]).
Proof.
  intros Hinv Hall Hfs0 Hfs1 Hfs2 Hstdin Hfile Hcmds.
  destruct (push_run_outcome devices w path confirm rest text)
    as [Hyes Hno]; [done..|].
  rewrite <- lower_yes.
  destruct (decide (Py.lower confirm = "yes")) as [Hl|Hl].
  - destruct (Hyes Hl) as (rs & Hrun & _). rewrite Hrun.
    split; split; [done|by eexists|discriminate|done].
  - rewrite (Hno Hl). split; split; [by intros [rs [=]] | done | done | done].
Qed.

(** X24: When the command file does not exist, or holds nothing but blank lines
    and comments, [main] stops after logging that no command was loaded: it
    does not ask for confirmation, and no device is contacted. *)
Theorem missing_command_file_stops_run devices w path rest :
  env_inventory E "config/devices.yml" = InvDocument (Some devices) →
  env_fs E (w_fsops w) = None →
  env_fs E (S (w_fsops w)) = None →
  env_fs E (S (S (w_fsops w))) = None →
  w_stdin w = path :: rest →
  w_files w !! path = None
  ∨ (∃ text, w_files w !! path = Some text
             ∧ comprehension (Py.file_lines text) = []) →
  (main_push E w).1 = Ret NoCommands
  ∧ w_stdin (main_push E w).2 = rest
  ∧ w_trace (main_push E w).2 = w_trace w
  ∧ last (w_log (main_push E w).2)
    = Some (ERROR, "No configuration commands loaded. Exiting.").
Proof.
  intros Hinv Hfs0 Hfs1 Hfs2 Hstdin Hfile.
  unfold main_push.
  do 4 netmiko_step.
  rewrite bind_run. unfold load_device_inventory. rewrite Hinv.
  do 2 netmiko_step. cbn [bind_k].
  netmiko_step. rewrite bind_run.
  match goal with |- context [load_configuration E path ?w0] =>
    assert (∃ w2, load_configuration E path w0 = (Ret [], w2)
                  ∧ w_stdin w2 = rest ∧ w_trace w2 = w_trace w)
      as (w2 & -> & Hs & Ht)
  end.
  { unfold load_configuration, try_except_file_not_found, open_r, fs_op, bind.
    netmiko_world_simpl. rewrite Hfs2. netmiko_world_simpl.
    destruct Hfile as [-> | (text & -> & ->)].
    - rewrite decide_True by done. by eexists.
    - by eexists. }
  cbn [bind_k]. do 2 netmiko_step. cbn [fst snd]. netmiko_world_simpl.
  split; [reflexivity|]. split; [exact Hs|]. split; [exact Ht|].
  apply last_snoc.
Qed.

Lemma for_if_failed_returns_push rs w :
  ∃ w', for_if is_failed print_failed rs w = (Ret tt, w').
Proof.
  revert w. induction rs as [|r rs IH]; intros w; [by exists w|].
  cbn [for_if]. rewrite bind_run.
  destruct r as [[out sv|err] dev b]; cbn -[for_if]; apply IH.
Qed.

(** X25: Whenever [main] gets through its loop or leaves by an early return, it
    returns normally, after the summary: a failure of some device, or of all
    of them, does not show in the way the process ends. *)
Theorem push_main_returns_normally w r w1 :
  main_push E w = (Ret r, w1) →
  ∃ w2, main E w = (Ret tt, w2).
Proof.
  intros Hrun. unfold main. rewrite bind_run, Hrun. cbn [bind_k].
  destruct r as [| |results]; [by eexists..|].
  unfold report. cbv zeta.
  repeat (rewrite bind_run, nm_print_run; cbn [bind_k]).
  rewrite bind_run.
  match goal with |- context [bind_k _ (?m ?w0)] =>
    assert (∃ w2, m w0 = (Ret tt, w2)) as [w2 ->]
  end.
  { case_match; [|by eexists].
    rewrite bind_run, nm_print_run. cbn [bind_k].
    apply for_if_failed_returns_push. }
  cbn [bind_k]. rewrite nm_log_run. by eexists.
Qed.

End PushMain.

(** ** Reading a file line by line *)

Section FileLines.

Lemma rev_app_append (s1 s2 : string) :
  String.rev_app s1 s2 = String.rev s1 +:+ s2.
Proof.
  unfold String.rev. revert s2.
  induction s1 as [|c s1 IH]; intros s2; [done|].
  cbn [String.rev_app]. rewrite (IH (String c s2)), (IH (String c "")).
  by rewrite append_assoc.
Qed.

Lemma rev_cons c (s : string) :
  String.rev (String c s) = String.rev s +:+ String c "".
Proof. unfold String.rev at 1. cbn [String.rev_app]. apply rev_app_append. Qed.

Lemma rev_cons_nonempty c (s : string) : String.rev (String c s) ≠ "".
Proof.
  rewrite rev_cons. destruct (String.rev s) as [|x r].
  - rewrite append_empty_l. discriminate.
  - rewrite append_cons. discriminate.
Qed.

Lemma split_lines_go_concat cur s :
  foldr String.append "" (Py.split_lines_go cur s) = String.rev cur +:+ s
  ∧ Forall (λ l, l ≠ "") (Py.split_lines_go cur s).
Proof.
  revert cur. induction s as [|c s IH]; intros cur.
  - cbn [Py.split_lines_go]. destruct cur as [|x cur]; cbn [Py.truthy foldr].
    + split; [reflexivity|constructor].
    + split; [reflexivity|].
      constructor; [apply rev_cons_nonempty|constructor].
  - cbn [Py.split_lines_go]. destruct (decide (c = Py.LF)) as [->|Hc].
    + destruct (IH "") as [Hcat Hne]. cbn [foldr]. split.
      * rewrite Hcat, rev_cons, append_assoc. reflexivity.
      * constructor; [apply rev_cons_nonempty|done].
    + destruct (IH (String c cur)) as [Hcat Hne]. split; [|done].
      rewrite Hcat, rev_cons, append_assoc. reflexivity.
Qed.

(** X26: Iterating over a file loses nothing and invents nothing: the lines, put
    end to end, are the text of the file with its line endings translated,
    and no line is empty. *)
Theorem file_lines_concat text :
  foldr String.append "" (Py.file_lines text) = Py.universal_newlines text
  ∧ Forall (λ l, l ≠ "") (Py.file_lines text).
Proof.
  unfold Py.file_lines.
  destruct (split_lines_go_concat "" (Py.universal_newlines text)) as [H1 H2].
  split; [|done]. by rewrite H1.
Qed.

End FileLines.

(** ** Further runs on concrete devices: the backup script *)

Section MoreBackupExamples.

Import NapalmBackup Examples MoreExamples BackupCompare.

Lemma successful_backup_call_sequence_witness :
  length (new_events (w_trace empty_world)
            (w_trace (backup_device_config all_healthy router empty_world).2))
  = 7%nat
  ∧ last (w_trace (backup_device_config all_healthy router empty_world).2)
    = Some (EvCall 0 MClose true).
Proof.
  assert ((backup_device_config all_healthy router empty_world).1
          = Ret (Success (Some "r1") "backups/r1" "20240101_120000"
                   (list_to_map
                      [ ("running_config",
                         "backups/r1/r1_running_20240101_120000.cfg");
                        ("facts", "backups/r1/r1_facts_20240101_120000.json");
                        ("interfaces",
                         "backups/r1/r1_interfaces_20240101_120000.json") ])))
    as Hrun by (vm_compute; reflexivity).
  pose proof (successful_backup_call_sequence all_healthy router empty_world
                _ _ _ _ Hrun) as Hseq.
  change (w_trace empty_world) with (@nil event) in *.
  unfold new_events in *. cbn [length drop] in *.
  rewrite Hseq. by split.
Defined.


Lemma backup_never_removes_files_witness :
  is_Some (w_files (backup_device_config all_healthy router after_earlier_run).2
           !! "backups/r1/r1_running_20231231_235959.cfg").
Proof.
  apply (proj1 (backup_never_removes_files all_healthy router after_earlier_run)).
  vm_compute. by eexists.
Defined.




Lemma failed_backup_is_logged_witness :
  last (w_log (backup_device_config facts_failing router empty_world).2)
  = Some (ERROR, "Failed to backup r1: Connection reset").
Proof.
  apply (failed_backup_is_logged facts_failing router empty_world
           (Some "r1") "Connection reset").
  vm_compute. reflexivity.
Defined.

Lemma earlier_artifacts_untouched_witness :
  w_files (backup_device_config all_healthy router after_earlier_run).2
  !! "backups/r1/r1_running_20231231_235959.cfg"
  = Some (Text "hostname old").
Proof.
  rewrite (earlier_artifacts_untouched all_healthy router after_earlier_run
             "r1" "20231231_235959").
  - reflexivity.
  - reflexivity.
  - vm_compute. discriminate.
  - apply list_elem_of_In. vm_compute. auto.
Defined.



Lemma nameless_device_aborts_run_witness :
  (main second_nameless empty_world).1 = Raise (key_error "host")
  ∧ (w_conns (main second_nameless empty_world).2 ≤ 1)%nat.
Proof.
  destruct (nameless_device_aborts_run second_nameless [router] nameless
              [router] empty_world)
    as (Hraise & _ & Hconns).
  - reflexivity.
  - repeat constructor. by exists "r1".
  - reflexivity.
  - reflexivity.
  - reflexivity.
  - by split.
Defined.

Lemma compare_configs_verdict_witness :
  (compare_configs backup_reader "r1" "a.cfg" (Some "b.cfg") empty_world).1
  = Ret "No changes detected"
  ∧ (compare_configs backup_reader "r1" "a.cfg" (Some "c.cfg") empty_world).1
    = Ret "Changes detected".
Proof.
  split.
  - apply (compare_configs_verdict backup_reader "r1" "a.cfg" "b.cfg"
             "hostname r1" "hostname r1" empty_world); reflexivity.
  - apply (compare_configs_verdict backup_reader "r1" "a.cfg" "c.cfg"
             "hostname r1" "hostname r9" empty_world);
      first [reflexivity | discriminate].
Defined.

Lemma compare_configs_never_raises_witness :
  (compare_configs backup_reader "r1" "a.cfg" (Some "d.cfg") empty_world).1
  = Ret ("Comparison failed: [Errno 2] No such file or directory: 'd.cfg'")
  ∧ (compare_configs backup_reader "r1" "a.cfg" None empty_world).1
    = Ret "No previous backup available for comparison".
Proof.
  split.
  - destruct (compare_configs_never_raises backup_reader "r1" "a.cfg"
                (Some "d.cfg") empty_world) as (msg & w' & -> & _ & Hfail).
    destruct (Hfail "d.cfg"
                (Exn FileNotFoundError
                   "[Errno 2] No such file or directory: 'd.cfg'"))
      as [-> _]; [reflexivity | reflexivity | | reflexivity].
    right. by split.
  - destruct (compare_configs_never_raises backup_reader "r1" "a.cfg"
                None empty_world) as (msg & w' & -> & Hnone & _).
    destruct Hnone as [-> _]; [by left|reflexivity].
Defined.

End MoreBackupExamples.

(** ** Further runs on concrete devices: the configuration script *)

Section MorePushExamples.

Import NetmikoConfig PushExamples MoreExamples.

Lemma successful_push_call_sequence_witness :
  new_events (w_trace (push_world "yes"))
    (w_trace (configure_device (push_env (λ _, reachable)) switch ["vlan 10"]
                (push_world "yes")).2)
  = [ EvConnect 0 switch true; EvEnable 0 true;
      EvSendConfigSet 0 ["vlan 10"] true; EvSaveConfig 0 true;
      EvDisconnect 0 true ].
Proof.
  apply (successful_push_call_sequence (push_env (λ _, reachable)) switch
           ["vlan 10"] (push_world "yes") "configured" "saved").
  vm_compute. reflexivity.
Defined.


Lemma refused_connection_gives_failed_result_witness :
  (configure_device (push_env (λ _, refused)) switch ["vlan 10"]
     (push_world "yes")).1
  = Ret (Failed "Connection refused").
Proof.
  apply (refused_connection_gives_failed_result (push_env (λ _, refused))
           switch ["vlan 10"] (push_world "yes")
           (Exn LibraryError "Connection refused")).
  - by exists "sw1".
  - reflexivity.
Defined.

Lemma configure_device_without_host_raises_witness :
  (configure_device (push_env (λ _, reachable)) nameless_switch ["vlan 10"]
     (push_world "yes")).1
  = Raise (key_error "host").
Proof.
  apply (configure_device_without_host_raises (push_env (λ _, reachable))
           nameless_switch ["vlan 10"] (push_world "yes")).
  reflexivity.
Defined.

Lemma failed_push_is_logged_witness :
  ∃ host,
    switch !! "host" = Some host
    ∧ last (w_log (configure_device (push_env (λ _, rejecting)) switch
                     ["vlan 10"] (push_world "yes")).2)
      = Some (ERROR, "Failed to configure " +:+ host +:+ ": "
                     +:+ "Invalid input detected").
Proof.
  apply (failed_push_is_logged (push_env (λ _, rejecting)) switch ["vlan 10"]
           (push_world "yes") "Invalid input detected").
  vm_compute. reflexivity.
Defined.

Lemma pre_change_backup_holds_running_config_witness :
  w_files (backup_configuration (push_env (λ _, reachable)) switch
             (push_world "yes")).2
  !! "backups/sw1_20240101_120000.cfg"
  = Some "hostname sw1".
Proof.
  destruct (pre_change_backup_holds_running_config (push_env (λ _, reachable))
              switch (push_world "yes") "backups/sw1_20240101_120000.cfg")
    as (host & cfg & _ & _ & Hcfg & Hfile & _).
  - vm_compute. reflexivity.
  - rewrite Hfile. vm_compute in Hcfg. congruence.
Defined.


Lemma backup_configuration_without_host_raises_witness :
  (backup_configuration (push_env (λ _, reachable)) nameless_switch
     (push_world "yes")).1
  = Raise (key_error "host").
Proof.
  apply (backup_configuration_without_host_raises (push_env (λ _, reachable))
           nameless_switch (push_world "yes")).
  reflexivity.
Defined.

Lemma backup_written_but_reported_missing_witness :
  (backup_configuration (push_env (λ _, hanging)) switch (push_world "yes")).1
  = Ret None
  ∧ w_files (backup_configuration (push_env (λ _, hanging)) switch
               (push_world "yes")).2
    !! "backups/sw1_20240101_120000.cfg"
    = Some "hostname sw1".
Proof.
  apply (backup_written_but_reported_missing (push_env (λ _, hanging)) switch
           (push_world "yes") "sw1" "hostname sw1"
           (Exn LibraryError "Socket is closed"));
    reflexivity.
Defined.

Lemma push_results_follow_inventory_witness :
  ∃ results,
    (main_push (two_switches (λ _, refused)) (push_world "Yes")).1
    = Ret (Completed results)
    ∧ length results = 2%nat
    ∧ w_conns (main_push (two_switches (λ _, refused)) (push_world "Yes")).2
      = 4%nat.
Proof.
  destruct (push_results_follow_inventory (two_switches (λ _, refused))
              [switch; switch] (push_world "Yes") "config/vlan_config.txt"
              "Yes" [] vlan_file)
    as (results & Hrun & Hlen & _ & Hconns).
  - reflexivity.
  - repeat constructor; by exists "sw1".
  - reflexivity.
  - reflexivity.
  - reflexivity.
  - reflexivity.
  - reflexivity.
  - vm_compute. discriminate.
  - reflexivity.
  - exists results. by split.
Defined.

Lemma gate_accepts_case_variants_of_yes_witness :
  ∃ results,
    (main_push (two_switches (λ _, reachable)) (push_world "YES")).1
    = Ret (Completed results).
Proof.
  apply (gate_accepts_case_variants_of_yes (two_switches (λ _, reachable))
           [switch; switch] (push_world "YES") "config/vlan_config.txt"
           "YES" [] vlan_file).
  - reflexivity.
  - repeat constructor; by exists "sw1".
  - reflexivity.
  - reflexivity.
  - reflexivity.
  - reflexivity.
  - reflexivity.
  - vm_compute. discriminate.
  - apply list_elem_of_In. simpl. auto 10.
Defined.

Lemma missing_command_file_stops_run_witness :
  (main_push (push_env (λ _, reachable)) wrong_path_world).1 = Ret NoCommands
  ∧ w_stdin (main_push (push_env (λ _, reachable)) wrong_path_world).2
    = ["yes"].
Proof.
  destruct (missing_command_file_stops_run (push_env (λ _, reachable))
              [switch] wrong_path_world "config/missing.txt" ["yes"])
    as (Hrun & Hstdin & _).
  - reflexivity.
  - reflexivity.
  - reflexivity.
  - reflexivity.
  - reflexivity.
  - left. reflexivity.
  - by split.
Defined.

Lemma push_main_returns_normally_witness :
  ∃ w2, main (two_switches (λ _, refused)) (push_world "yes") = (Ret tt, w2).
Proof.
  assert (∃ r, main_push (two_switches (λ _, refused)) (push_world "yes")
               = (Ret r,
                  (main_push (two_switches (λ _, refused))
                     (push_world "yes")).2)) as [r Hrun].
  { eexists. vm_compute. reflexivity. }
  exact (push_main_returns_normally (two_switches (λ _, refused))
           (push_world "yes") r _ Hrun).
Defined.

End MorePushExamples.
